(** * agentscope-bricks: generation components and the MCP server registry

    A shallow embedding of

      - [components/generations/async_image_to_video_fl_wan22.py]
      - [components/generations/async_video_to_video_wan26.py]
      - [components/generations/image_generation_wan26.py]
      - [components/generations/image_edit_wan26.py]
      - [components/__init__.py]

    Every [arun] coroutine becomes a computation in a state-and-exception
    monad.  The state is the log of the calls that left the process (the
    DashScope SDK calls, the HTTP POST) and of the [trace_event.on_log]
    records; an exception is a value of [exn].  What the outside world
    answers (the configured API key, the tracing request id, the random bits
    of [uuid.uuid4], the provider replies) is read from an [Env]. *)

From Stdlib Require Import ZArith NArith Ascii String.
From stdpp Require Import base strings gmap list.

Open Scope Z_scope.
Open Scope string_scope.

(** ** Python values *)

(** The values that flow through the reply parsers.  [PDict] is a plain
    [dict] (what JSON decoding and dict displays build); [PObj] is a
    DashScope reply object, a [dict] subclass whose entries can also be read
    as attributes. *)
#[warnings="-register-all"]
Inductive pyval :=
| PNone
| PBool (b : bool)
| PInt (z : Z)
| PStr (s : string)
| PList (items : list pyval)
| PDict (entries : list (string * pyval))
| PObj (attrs : list (string * pyval)).

(** First binding of a key in the entries of a dict or object. *)
Fixpoint assoc (k : string) (l : list (string * pyval)) : option pyval :=
  match l with
  | [] => None
  | (k', v) :: l' => if String.eqb k k' then Some v else assoc k l'
  end.

(** [bool(v)]. *)
Definition truthy (v : pyval) : bool :=
  match v with
  | PNone => false
  | PBool b => b
  | PInt z => negb (Z.eqb z 0)
  | PStr s => negb (String.eqb s "")
  | PList l => match l with [] => false | _ => true end
  | PDict l | PObj l => match l with [] => false | _ => true end
  end.

(** [getattr(v, name, default)]: only reply objects carry the attributes
    the parsers ask for; on every other value the default comes back. *)
Definition getattr (v : pyval) (name : string) (default : pyval) : pyval :=
  match v with
  | PObj l => match assoc name l with Some x => x | None => default end
  | _ => default
  end.


Definition isinstance_str (v : pyval) : bool :=
  match v with PStr _ => true | _ => false end.

Definition isinstance_dict (v : pyval) : bool :=
  match v with PDict _ | PObj _ => true | _ => false end.

(** [key in v] for a value already known to be a dict. *)
Definition dict_contains (key : string) (v : pyval) : bool :=
  match v with
  | PDict l | PObj l => match assoc key l with Some _ => true | None => false end
  | _ => false
  end.

(** [s.startswith(("http://", "https://"))]. *)
Definition startswith_http (s : string) : bool :=
  String.prefix "http://" s || String.prefix "https://" s.

(** The one-character strings a [for] loop over a [str] yields. *)
Fixpoint chars (s : string) : list pyval :=
  match s with
  | EmptyString => []
  | String c s' => PStr (String c EmptyString) :: chars s'
  end.

(** ** Exceptions and the monad *)

(** The exception classes the components raise or let through.  For an
    f-string message only its literal part is kept when the interpolated
    value is the [repr] of a reply object. *)
Inductive exn :=
| AssertionError
| ValueError (msg : string)
| RuntimeError (msg : string)
| KeyError (key : string)
| TypeError (msg : string)
| AttributeError (msg : string)
| ValidationError (field : string)
| JSONDecodeError (msg : string)
| TransportError (msg : string).

Inductive result (A : Type) :=
| Ok (a : A)
| Raise (e : exn).
Arguments Ok {A} a.
Arguments Raise {A} e.

#[global] Instance result_ret : MRet result := fun A a => Ok a.

#[global] Instance result_bind : MBind result := fun A B f r =>
  match r with
  | Ok a => f a
  | Raise e => Raise e
  end.

(** [str(e)]; for a pydantic validation error only the field name is kept. *)
Definition str_exn (e : exn) : string :=
  match e with
  | AssertionError => ""
  | KeyError key => "'" +:+ key +:+ "'"
  | ValueError msg | RuntimeError msg | TypeError msg | AttributeError msg
  | ValidationError msg | JSONDecodeError msg | TransportError msg => msg
  end.

(** [iter(v)]: the items a [for] loop visits; a value that is not
    iterable raises [TypeError]. *)
Definition py_iter (v : pyval) : result (list pyval) :=
  match v with
  | PList l => Ok l
  | PStr s => Ok (chars s)
  | PDict l | PObj l => Ok (map (fun kv => PStr (fst kv)) l)
  | PNone => Raise (TypeError "'NoneType' object is not iterable")
  | PBool _ => Raise (TypeError "'bool' object is not iterable")
  | PInt _ => Raise (TypeError "'int' object is not iterable")
  end.

(** A [for] loop whose body may raise, threading the loop's state. *)
Fixpoint for_each {S A : Type} (body : S -> A -> result S) (l : list A) (s : S)
    : result S :=
  match l with
  | [] => Ok s
  | x :: l' =>
      match body s x with
      | Ok s' => for_each body l' s'
      | Raise e => Raise e
      end
  end.

(** [v[key]] with a string key. *)
Definition getitem (v : pyval) (key : string) : result pyval :=
  match v with
  | PDict l | PObj l =>
      match assoc key l with Some x => Ok x | None => Raise (KeyError key) end
  | PStr _ => Raise (TypeError "string indices must be integers")
  | PList _ => Raise (TypeError "list indices must be integers or slices, not str")
  | PNone | PBool _ | PInt _ => Raise (TypeError "object is not subscriptable")
  end.

(** pydantic's check of a [str] field. *)
Definition validate_str (field : string) (v : pyval) : result string :=
  match v with
  | PStr s => Ok s
  | _ => Raise (ValidationError field)
  end.

(** pydantic's check of a [list[str]] field. *)
Fixpoint validate_str_list (field : string) (l : list pyval) : result (list string) :=
  match l with
  | [] => Ok []
  | v :: l' =>
      match validate_str field v with
      | Raise e => Raise e
      | Ok s =>
          match validate_str_list field l' with
          | Raise e => Raise e
          | Ok ss => Ok (s :: ss)
          end
      end
  end.

(** Truthiness of an optional string: [None] and [""] are falsy. *)
Definition truthy_str (o : option string) : bool :=
  match o with
  | Some s => negb (String.eqb s "")
  | None => false
  end.

(** [a or b] on optional strings. *)
Definition or_str (a b : option string) : option string :=
  if truthy_str a then a else b.

(** ** [uuid.uuid4] and its string form *)

Definition hex_digit (d : N) : ascii :=
  match d with
  | 0 => "0" | 1 => "1" | 2 => "2" | 3 => "3" | 4 => "4" | 5 => "5"
  | 6 => "6" | 7 => "7" | 8 => "8" | 9 => "9" | 10 => "a" | 11 => "b"
  | 12 => "c" | 13 => "d" | 14 => "e" | _ => "f"
  end%N%char.

(** ['%0<width>x' % n] for a value below [16 ^ width]. *)
Fixpoint hex_fixed (width : nat) (n : N) : string :=
  match width with
  | O => ""
  | S w => hex_fixed w (n / 16)%N +:+ String (hex_digit (n mod 16)%N) ""
  end.

(** [UUID(bytes=os.urandom(16), version=4).int]: the variant and version
    bits are forced on the 128 random bits. *)
Definition uuid4 (urandom : N) : N :=
  let int := N.ldiff urandom (N.shiftl 0xc000 48) in
  let int := N.lor int (N.shiftl 0x8000 48) in
  let int := N.ldiff int (N.shiftl 0xf000 64) in
  N.lor int (N.shiftl 4 76).

(** [str(UUID)]: 32 hex digits grouped 8-4-4-4-12. *)
Definition str_uuid (int : N) : string :=
  let hex := hex_fixed 32 int in
  String.substring 0 8 hex +:+ "-" +:+ String.substring 8 4 hex +:+ "-" +:+
  String.substring 12 4 hex +:+ "-" +:+ String.substring 16 4 hex +:+ "-" +:+
  String.substring 20 12 hex.

(** ** Calls, replies and the environment *)

(** [**kwargs] of [arun]: the entries the components look at. *)
Record Kwargs := {
  kw_trace_event : bool;              (* a [trace_event] object was passed *)
  kw_model_name : option string;
}.

(** [AioVideoSynthesis.async_call(...)]. *)
Record AsyncCall := {
  ac_model : string;
  ac_api_key : string;
  ac_first_frame_url : string;
  ac_last_frame_url : string;
  ac_prompt : option string;
  ac_negative_prompt : option string;
  ac_parameters : gmap string pyval;
}.

(** [AioVideoSynthesis.fetch(api_key=..., task=...)]. *)
Record FetchCall := {
  fc_api_key : string;
  fc_task : string;
}.

(** [AioMultiModalConversation.call(...)]. *)
Record ConversationCall := {
  cc_api_key : string;
  cc_model : string;
  cc_messages : pyval;
  cc_enable_interleave : option bool;
  cc_parameters : gmap string pyval;
}.

(** [session.post(url, headers=..., json=...)]. *)
Record PostCall := {
  pc_url : string;
  pc_headers : list (string * string);
  pc_json : pyval;
}.

Inductive call :=
| CAsyncCall (c : AsyncCall)
| CFetch (c : FetchCall)
| CConversation (c : ConversationCall)
| CPost (c : PostCall).

(** [response.output] of the video synthesis SDK. *)
Record VideoSynthesisOutput := {
  vo_task_id : string;
  vo_task_status : string;
  vo_video_url : string;
}.

(** The video synthesis SDK's reply object. *)
Record VideoSynthesisResponse := {
  vr_status_code : Z;
  vr_request_id : option string;
  vr_output : option VideoSynthesisOutput;
}.

(** The multimodal conversation SDK's reply object; its [output] is walked
    with [getattr] and [isinstance], so it stays a [pyval]. *)
Record ConversationResponse := {
  cr_status_code : Z;
  cr_request_id : option string;
  cr_output : pyval;
}.

(** aiohttp's [ClientResponse]: status, [await resp.text()] and
    [await resp.json()]. *)
Record ClientResponse := {
  resp_status : Z;
  resp_text : string;
  resp_json : result pyval;
}.

(** What the world outside the component answers. *)
Record Env := {
  get_api_key : Kwargs -> result string;
  get_request_id : option string;                 (* TracingUtil.get_request_id() *)
  getenv_IMAGE_TO_VIDEO_KF2V_MODEL_NAME : option string;
  urandom16 : N;
  async_call_reply : AsyncCall -> result VideoSynthesisResponse;
  fetch_reply : FetchCall -> result VideoSynthesisResponse;
  conversation_reply : ConversationCall -> result ConversationResponse;
  post_reply : PostCall -> result ClientResponse;
}.

(** One [trace_event.on_log("", step_suffix=..., payload=...)] record. *)
Record TraceRecord := {
  tr_step_suffix : string;
  tr_request_id : option string;
  tr_payload_key : string;
}.

Record World := {
  transport_calls : list call;
  trace_log : list TraceRecord;
}.

Definition M (A : Type) : Type := World -> result A * World.

#[global] Instance M_ret : MRet M := fun A a w => (Ok a, w).

#[global] Instance M_bind : MBind M := fun A B f m w =>
  match m w with
  | (Ok a, w') => f a w'
  | (Raise e, w') => (Raise e, w')
  end.

Definition raise {A} (e : exn) : M A := fun w => (Raise e, w).

(** A call that leaves the process: it is logged, then the reply (or the
    exception the client library raises) comes back. *)
Definition transport {R} (c : call) (reply : result R) : M R := fun w =>
  (reply, {| transport_calls := (transport_calls w ++ [c])%list; trace_log := trace_log w |}).

Definition on_log (r : TraceRecord) : M unit := fun w =>
  (Ok tt, {| transport_calls := transport_calls w; trace_log := (trace_log w ++ [r])%list |}).

(** [try: api_key = get_api_key(ApiNames.dashscope_api_key, **kwargs)
     except AssertionError: raise ValueError("Please set valid DASHSCOPE_API_KEY!")] *)
Definition api_key_or_ValueError (env : Env) (kwargs : Kwargs) : M string :=
  match get_api_key env kwargs with
  | Ok key => mret key
  | Raise AssertionError => raise (ValueError "Please set valid DASHSCOPE_API_KEY!")
  | Raise e => raise e
  end.

Definition HTTPStatus_OK : Z := 200.

(** [parameters[key] = value] guarded by an [if]. *)
Definition set_if (cond : bool) (key : string) (value : pyval)
    (parameters : gmap string pyval) : gmap string pyval :=
  if cond then <[key := value]> parameters else parameters.

(** [if opt is not None: parameters[key] = inj(opt)]. *)
Definition set_if_not_None {A} (opt : option A) (key : string) (inj : A -> pyval)
    (parameters : gmap string pyval) : gmap string pyval :=
  match opt with
  | Some a => <[key := inj a]> parameters
  | None => parameters
  end.

(** [if opt: parameters[key] = opt] for an optional string. *)
Definition set_if_truthy (opt : option string) (key : string)
    (parameters : gmap string pyval) : gmap string pyval :=
  match opt with
  | Some s => set_if (negb (String.eqb s "")) key (PStr s) parameters
  | None => parameters
  end.

(** [x in [...]] for strings. *)
Definition str_in (x : string) (l : list string) : bool :=
  existsb (String.eqb x) l.

(** [response.output.<field>] after the guard: on [None] Python raises
    [AttributeError]. *)
Definition output_of (response : VideoSynthesisResponse) : M VideoSynthesisOutput :=
  match vr_output response with
  | Some output => mret output
  | None => raise (AttributeError "'NoneType' object has no attribute")
  end.

(** The guard shared by the keyframe-to-video submit and fetch:
    [response.status_code != HTTPStatus.OK or not response.output
     or response.output.task_status in ["FAILED", "CANCELED"]]. *)
Definition video_reply_rejected (response : VideoSynthesisResponse) : bool :=
  negb (Z.eqb (vr_status_code response) HTTPStatus_OK)
  || match vr_output response with
     | None => true
     | Some output => str_in (vo_task_status output) ["FAILED"; "CANCELED"]
     end.

(** ** async_image_to_video_fl_wan22.py *)

Record ImageToVideoByFirstAndLastFrameWan22SubmitInput := {
  si_first_frame_url : string;
  si_last_frame_url : string;
  si_prompt : option string;
  si_negative_prompt : option string;
  si_resolution : option string;
  si_template : option string;
  si_prompt_extend : option bool;
  si_watermark : option bool;
  si_seed : option Z;
}.

Record ImageToVideoByFirstAndLastFrameWan22SubmitOutput := {
  so_task_id : string;
  so_task_status : string;
  so_request_id : option string;
}.

(** The optional tuning parameters of the submit call. *)
Definition Wan22Submit_parameters
    (args : ImageToVideoByFirstAndLastFrameWan22SubmitInput) : gmap string pyval :=
  let parameters := ∅ in
  let parameters := set_if_truthy (si_resolution args) "resolution" parameters in
  let parameters := set_if_not_None (si_prompt_extend args) "prompt_extend" PBool parameters in
  let parameters := set_if_not_None (si_watermark args) "watermark" PBool parameters in
  let parameters := set_if_not_None (si_seed args) "seed" PInt parameters in
  set_if_truthy (si_template args) "template" parameters.

(** [ImageToVideoByFirstAndLastFrameWan22Submit.arun]. *)
Definition ImageToVideoByFirstAndLastFrameWan22Submit_arun (env : Env)
    (args : ImageToVideoByFirstAndLastFrameWan22SubmitInput) (kwargs : Kwargs)
    : M ImageToVideoByFirstAndLastFrameWan22SubmitOutput :=
  let trace_event := kw_trace_event kwargs in
  let request_id := get_request_id env in
  api_key ← api_key_or_ValueError env kwargs;
  let model_name :=
    match kw_model_name kwargs with
    | Some m => m
    | None => default "wan2.2-kf2v-flash" (getenv_IMAGE_TO_VIDEO_KF2V_MODEL_NAME env)
    end in
  let parameters := Wan22Submit_parameters args in
  let c := {| ac_model := model_name; ac_api_key := api_key;
              ac_first_frame_url := si_first_frame_url args;
              ac_last_frame_url := si_last_frame_url args;
              ac_prompt := si_prompt args;
              ac_negative_prompt := si_negative_prompt args;
              ac_parameters := parameters |} in
  response ← transport (CAsyncCall c) (async_call_reply env c);
  _ ← (if trace_event
       then on_log {| tr_step_suffix := "results"; tr_request_id := request_id;
                      tr_payload_key := "submit_task" |}
       else mret tt);
  if video_reply_rejected response
  then raise (RuntimeError "Failed to submit keyframe-to-video task: ")
  else
    let request_id :=
      if negb (truthy_str request_id)
      then (if truthy_str (vr_request_id response)
            then vr_request_id response
            else Some (str_uuid (uuid4 (urandom16 env))))
      else request_id in
    output ← output_of response;
    mret {| so_request_id := request_id;
            so_task_id := vo_task_id output;
            so_task_status := vo_task_status output |}.

Record ImageToVideoByFirstAndLastFrameWan22FetchInput := {
  fi_task_id : string;
}.

Record ImageToVideoByFirstAndLastFrameWan22FetchOutput := {
  fo_video_url : string;
  fo_task_id : string;
  fo_task_status : string;
  fo_request_id : option string;
}.

(** [ImageToVideoByFirstAndLastFrameWan22Fetch.arun]. *)
Definition ImageToVideoByFirstAndLastFrameWan22Fetch_arun (env : Env)
    (args : ImageToVideoByFirstAndLastFrameWan22FetchInput) (kwargs : Kwargs)
    : M ImageToVideoByFirstAndLastFrameWan22FetchOutput :=
  let trace_event := kw_trace_event kwargs in
  let request_id := get_request_id env in
  api_key ← api_key_or_ValueError env kwargs;
  let c := {| fc_api_key := api_key; fc_task := fi_task_id args |} in
  response ← transport (CFetch c) (fetch_reply env c);
  _ ← (if trace_event
       then on_log {| tr_step_suffix := "results";
                      tr_request_id := vr_request_id response;
                      tr_payload_key := "fetch_result" |}
       else mret tt);
  if video_reply_rejected response
  then raise (RuntimeError "Failed to fetch keyframe-to-video result: ")
  else
    let request_id :=
      or_str (vr_request_id response)
             (or_str request_id (Some (str_uuid (uuid4 (urandom16 env))))) in
    output ← output_of response;
    mret {| fo_video_url := vo_video_url output;
            fo_task_id := vo_task_id output;
            fo_task_status := vo_task_status output;
            fo_request_id := request_id |}.

(** ** async_video_to_video_wan26.py *)

Definition DASHSCOPE_API_BASE : string := "https://dashscope.aliyuncs.com/api/v1".

Record VideoToVideoGenerationWan26Input := {
  vi_prompt : string;
  vi_reference_video_urls : list string;
  vi_negative_prompt : option string;
  vi_size : option string;
  vi_duration : option Z;
  vi_shot_type : option string;
  vi_watermark : option bool;
  vi_seed : option Z;
}.

Record VideoToVideoGenerationWan26Output := {
  vto_task_id : string;
  vto_request_id : option string;
}.

(** A Python [Optional] as a JSON value. *)
Definition opt_val {A} (inj : A -> pyval) (o : option A) : pyval :=
  match o with
  | Some a => inj a
  | None => PNone
  end.

(** The JSON body of the creation request. *)
Definition VideoToVideoW26Submit_payload (args : VideoToVideoGenerationWan26Input) : pyval :=
  let input_data :=
    [("prompt", PStr (vi_prompt args));
     ("reference_video_urls", PList (map PStr (vi_reference_video_urls args)))] in
  let input_data :=
    match vi_negative_prompt args with
    | Some np => (input_data ++ [("negative_prompt", PStr np)])%list
    | None => input_data
    end in
  let parameters :=
    [("size", opt_val PStr (vi_size args));
     ("duration", opt_val PInt (vi_duration args));
     ("shot_type", opt_val PStr (vi_shot_type args));
     ("watermark", opt_val PBool (vi_watermark args))] in
  let parameters :=
    match vi_seed args with
    | Some seed => (parameters ++ [("seed", PInt seed)])%list
    | None => parameters
    end in
  PDict [("model", PStr "wan2.6-r2v");
         ("input", PDict input_data);
         ("parameters", PDict parameters)].

Definition lift {A} (r : result A) : M A := fun w => (r, w).

(** [VideoToVideoW26Submit.arun]. *)
Definition VideoToVideoW26Submit_arun (env : Env)
    (args : VideoToVideoGenerationWan26Input) (kwargs : Kwargs)
    : M VideoToVideoGenerationWan26Output :=
  api_key ← api_key_or_ValueError env kwargs;
  let payload := VideoToVideoW26Submit_payload args in
  let headers :=
    [("Authorization", "Bearer " +:+ api_key);
     ("Content-Type", "application/json");
     ("X-DashScope-Async", "enable")] in
  let create_url :=
    DASHSCOPE_API_BASE +:+ "/services/aigc/video-generation/video-synthesis" in
  let c := {| pc_url := create_url; pc_headers := headers; pc_json := payload |} in
  resp ← transport (CPost c) (post_reply env c);
  task_id ←
    (if negb (Z.eqb (resp_status resp) HTTPStatus_OK)
     then
       let error_text := resp_text resp in
       raise (RuntimeError ("Failed to create video task: " +:+ error_text))
     else
       response_json ← lift (resp_json resp);
       output ← lift (getitem response_json "output");
       lift (getitem output "task_id"));
  let request_id :=
    or_str (get_request_id env) (Some (str_uuid (uuid4 (urandom16 env)))) in
  task_id ← lift (validate_str "task_id" task_id);
  mret {| vto_task_id := task_id; vto_request_id := request_id |}.

(** [try: m except Exception as e: handler(e)]. *)
Definition try_except {A} (m : M A) (handler : exn -> M A) : M A := fun w =>
  match m w with
  | (Ok a, w') => (Ok a, w')
  | (Raise e, w') => handler e w'
  end.

(** [results.append(v)]. *)
Definition append (results : list pyval) (v : pyval) : list pyval :=
  (results ++ [v])%list.

(** ** image_generation_wan26.py *)

Record ImageGenerationWan26Input := {
  gi_prompt : string;
  gi_negative_prompt : option string;
  gi_size : option string;
  gi_prompt_extend : option bool;
  gi_n : option Z;
  gi_seed : option Z;
  gi_watermark : option bool;
}.

Record ImageGenerationWan26Output := {
  go_results : list string;
  go_request_id : option string;
}.

(** The keyword parameters handed to the SDK.  [watermark] is an
    [Optional[bool]] once pydantic has validated the input, so the
    normalisation step ([bool(args.watermark)]) leaves it as it is. *)
Definition ImageGenerationWan26_parameters (args : ImageGenerationWan26Input)
    : gmap string pyval :=
  let parameters := ∅ in
  let parameters := set_if_truthy (gi_negative_prompt args) "negative_prompt" parameters in
  let parameters :=
    match gi_size args with
    | Some size =>
        set_if (negb (String.eqb size "") && negb (String.eqb size "1024*1024"))
               "size" (PStr size) parameters
    | None => parameters
    end in
  let parameters := set_if_not_None (gi_n args) "n" PInt parameters in
  let parameters := set_if_not_None (gi_seed args) "seed" PInt parameters in
  let parameters := set_if_not_None (gi_watermark args) "watermark" PBool parameters in
  set_if_not_None (gi_prompt_extend args) "prompt_extend" PBool parameters.

Definition ImageGenerationWan26_call (api_key : string) (args : ImageGenerationWan26Input)
    : ConversationCall :=
  let model_name := "wan2.6-t2i" in
  let messages :=
    PList [PDict [("role", PStr "user");
                  ("content", PList [PDict [("text", PStr (gi_prompt args))]])]] in
  {| cc_api_key := api_key; cc_model := model_name; cc_messages := messages;
     cc_enable_interleave := None;
     cc_parameters := ImageGenerationWan26_parameters args |}.

(** Body of [for item in content]. *)
Definition ImageGenerationWan26_visit_item (results : list pyval) (item : pyval)
    : result (list pyval) :=
  if isinstance_dict item && dict_contains "image" item
  then image ← getitem item "image"; mret (append results image)
  else mret results.

(** Body of [for choice in choices]. *)
Definition ImageGenerationWan26_visit_choice (results : list pyval) (choice : pyval)
    : result (list pyval) :=
  let message := getattr choice "message" (PDict []) in
  let content := getattr message "content" (PList []) in
  match content with
  | PList items => for_each ImageGenerationWan26_visit_item items results
  | PStr _ => mret (append results content)
  | _ =>
      if isinstance_dict content && dict_contains "image" content
      then image ← getitem content "image"; mret (append results image)
      else mret results
  end.

(** The [try] block that walks the reply. *)
Definition ImageGenerationWan26_parse (response : ConversationResponse)
    : result (list pyval) :=
  let results := [] in
  if truthy (cr_output response)
  then
    let choices := getattr (cr_output response) "choices" (PList []) in
    choices ← py_iter choices;
    for_each ImageGenerationWan26_visit_choice choices results
  else mret results.

(** [ImageGenerationWan26.arun]. *)
Definition ImageGenerationWan26_arun (env : Env)
    (args : ImageGenerationWan26Input) (kwargs : Kwargs)
    : M ImageGenerationWan26Output :=
  let trace_event := kw_trace_event kwargs in
  let request_id := get_request_id env in
  api_key ← api_key_or_ValueError env kwargs;
  let c := ImageGenerationWan26_call api_key args in
  response ←
    try_except (transport (CConversation c) (conversation_reply env c))
      (fun e => raise (RuntimeError
         ("Failed to call Wan 2.6 image generation API: " +:+ str_exn e)));
  if negb (Z.eqb (cr_status_code response) 200) || negb (truthy (cr_output response))
  then raise (RuntimeError "Wan 2.6 image generation failed: ")
  else
    results ←
      match ImageGenerationWan26_parse response with
      | Ok results => mret results
      | Raise e =>
          raise (RuntimeError ("Failed to parse Wan 2.6 API response: " +:+ str_exn e))
      end;
    if negb (truthy (PList results))
    then raise (RuntimeError "No image URLs found in response: ")
    else
      let request_id :=
        if negb (truthy_str request_id)
        then or_str (cr_request_id response) (Some (str_uuid (uuid4 (urandom16 env))))
        else request_id in
      _ ← (if trace_event
           then on_log {| tr_step_suffix := "results"; tr_request_id := request_id;
                          tr_payload_key := "wanx26_image_generation_result" |}
           else mret tt);
      results ← lift (validate_str_list "results" results);
      mret {| go_results := results; go_request_id := request_id |}.

(** ** image_edit_wan26.py *)

Record ImageGenInput := {
  ei_prompt : string;
  ei_negative_prompt : option string;
  ei_size : option string;
  ei_prompt_extend : option bool;
  ei_seed : option Z;
  ei_watermark : option bool;
  ei_n : option Z;
  ei_images : list string;
}.

Record ImageGenOutput := {
  eo_results : list string;
  eo_request_id : option string;
}.

Definition ImageEditWan26_parameters (args : ImageGenInput) : gmap string pyval :=
  let parameters := ∅ in
  let parameters := set_if_truthy (ei_negative_prompt args) "negative_prompt" parameters in
  let parameters := set_if_truthy (ei_size args) "size" parameters in
  let parameters := set_if_not_None (ei_seed args) "seed" PInt parameters in
  let parameters := set_if_not_None (ei_watermark args) "watermark" PBool parameters in
  let parameters := set_if_not_None (ei_prompt_extend args) "prompt_extend" PBool parameters in
  set_if_not_None (ei_n args) "n" PInt parameters.

Definition ImageEditWan26_call (api_key : string) (args : ImageGenInput)
    : ConversationCall :=
  let model_name := "wan2.6-image" in
  let content := [PDict [("text", PStr (ei_prompt args))]] in
  let images := ei_images args in
  let content :=
    fold_left (fun content img_url => append content (PDict [("image", PStr img_url)]))
              images content in
  let messages := PList [PDict [("role", PStr "user"); ("content", PList content)]] in
  {| cc_api_key := api_key; cc_model := model_name; cc_messages := messages;
     cc_enable_interleave := Some false;
     cc_parameters := ImageEditWan26_parameters args |}.

(** Body of [for item in msg_content]. *)
Definition ImageEditWan26_visit_item (results : list pyval) (item : pyval)
    : result (list pyval) :=
  if isinstance_dict item && dict_contains "image" item
  then image ← getitem item "image"; mret (append results image)
  else
    match item with
    | PStr s => if startswith_http s then mret (append results item) else mret results
    | _ => mret results
    end.

(** Body of [for choice in choices]. *)
Definition ImageEditWan26_visit_choice (results : list pyval) (choice : pyval)
    : result (list pyval) :=
  let message := getattr choice "message" (PDict []) in
  let msg_content := getattr message "content" (PList []) in
  match msg_content with
  | PList items => for_each ImageEditWan26_visit_item items results
  | PStr s =>
      if startswith_http s then mret (append results msg_content) else mret results
  | _ =>
      if isinstance_dict msg_content && dict_contains "image" msg_content
      then image ← getitem msg_content "image"; mret (append results image)
      else mret results
  end.

(** The [try] block that walks the reply. *)
Definition ImageEditWan26_parse (response : ConversationResponse)
    : result (list pyval) :=
  let results := [] in
  if truthy (cr_output response)
  then
    let choices := getattr (cr_output response) "choices" (PList []) in
    if truthy choices
    then
      choices ← py_iter choices;
      for_each ImageEditWan26_visit_choice choices results
    else mret results
  else mret results.

(** [ImageEditWan26.arun]. *)
Definition ImageEditWan26_arun (env : Env) (args : ImageGenInput) (kwargs : Kwargs)
    : M ImageGenOutput :=
  let trace_event := kw_trace_event kwargs in
  let request_id := get_request_id env in
  api_key ← api_key_or_ValueError env kwargs;
  let c := ImageEditWan26_call api_key args in
  response ←
    try_except (transport (CConversation c) (conversation_reply env c))
      (fun e => raise (RuntimeError
         ("Failed to call Wanx 2.6 image generation API: " +:+ str_exn e)));
  if negb (Z.eqb (cr_status_code response) 200) || negb (truthy (cr_output response))
  then raise (RuntimeError "Wanx 2.6 image generation failed: ")
  else
    results ←
      match ImageEditWan26_parse response with
      | Ok results => mret results
      | Raise e =>
          raise (RuntimeError ("Failed to parse Wanx 2.6 API response: " +:+ str_exn e))
      end;
    if negb (truthy (PList results))
    then raise (RuntimeError "No image found in response: ")
    else
      let request_id :=
        if negb (truthy_str request_id)
        then or_str (cr_request_id response) (Some (str_uuid (uuid4 (urandom16 env))))
        else request_id in
      _ ← (if trace_event
           then on_log {| tr_step_suffix := "results"; tr_request_id := request_id;
                          tr_payload_key := "wanx26_image_generation_result" |}
           else mret tt);
      results ← lift (validate_str_list "results" results);
      mret {| eo_results := results; eo_request_id := request_id |}.

(** ** components/__init__.py: the MCP server registry *)

(** The component classes the module imports. *)
Inductive Component :=
| ImageToVideoWan25Fetch | ImageToVideoWan25Submit
| TextToVideoWan25Submit | TextToVideoWan25Fetch
| ImageEditWan25 | MultichannelSpeechToText
| QwenImageEdit | QwenImageGen | QwenTextToSpeech
| TextToVideo | ImageToVideo | SpeechToVideo
| ModelstudioSearchLite | ImageGeneration | ImageGenerationWan25
| ImageEdit | ImageStyleRepaint | SpeechToText
| TextToVideoSubmit | TextToVideoFetch
| ImageToVideoSubmit | ImageToVideoFetch
| SpeechToVideoSubmit | SpeechToVideoFetch
| TextToVideoWan26Submit | ImageToVideoWan26Submit
| ImageGenerationWan26 | WanVideoFetch | QwenImageEditNew
| ImageEditWan26 | ZImageGeneration
| ImageOutPaintingSubmit | ImageOutPaintingFetch
| ImageToVideoByFirstAndLastFrameWan22Submit
| ImageOutPaintingAuto | WanImageInterleaveGeneration
| VideoToVideoW26Submit.

#[global] Instance Component_eq_dec : EqDecision Component.
Proof. solve_decision. Defined.

Record McpServerMeta := {
  instructions : string;
  components : list Component;
}.

(** A dict display [{k1: v1, k2: v2, ...}]: entries are stored in order, a
    repeated key keeps its first position and takes the later value. *)
Fixpoint dict_set {V} (k : string) (v : V) (d : list (string * V)) : list (string * V) :=
  match d with
  | [] => [(k, v)]
  | (k', v') :: d' =>
      if String.eqb k k' then (k, v) :: d' else (k', v') :: dict_set k v d'
  end.

Definition dict_display {V} (entries : list (string * V)) : list (string * V) :=
  fold_left (fun d kv => dict_set (fst kv) (snd kv) d) entries [].

Definition mcp_server_metas : list (string * McpServerMeta) :=
  dict_display [
    ("modelstudio_wan_image",
     {| instructions := "基于通义万相大模型的智能图像生成服务，提供高质量的图像处理和编辑功能";
        components := [ImageGeneration; ImageEdit; ImageStyleRepaint;
                       ImageOutPaintingSubmit; ImageOutPaintingFetch;
                       ImageOutPaintingAuto] |});
    ("modelstudio_wan_video",
     {| instructions := "基于通义万相大模型提供AI视频生成服务，支持文本到视频、图像到视频和语音到视频的多模态生成功能";
        components := [TextToVideoSubmit; TextToVideoFetch; ImageToVideoSubmit;
                       ImageToVideoFetch; SpeechToVideoSubmit; SpeechToVideoFetch;
                       ImageToVideoByFirstAndLastFrameWan22Submit; WanVideoFetch] |});
    ("modelstudio_wan25_media",
     {| instructions := "基于通义万相大模型2.5版本提供的图像和视频生成服务";
        components := [ImageGenerationWan25; ImageEditWan25; TextToVideoWan25Submit;
                       TextToVideoWan25Fetch; ImageToVideoWan25Submit;
                       ImageToVideoWan25Fetch] |});
    ("modelstudio_qwen_image",
     {| instructions := "基于通义千问大模型的智能图像生成服务，提供高质量的图像处理和编辑功能";
        components := [QwenImageGen; QwenImageEdit; QwenImageEditNew] |});
    ("modelstudio_web_search",
     {| instructions := "提供实时互联网搜索服务，提供准确及时的信息检索功能";
        components := [ModelstudioSearchLite] |});
    ("modelstudio_speech_to_text",
     {| instructions := "录音文件的语音识别服务，支持多种音频格式的语音转文字功能";
        components := [SpeechToText; MultichannelSpeechToText] |});
    ("modelstudio_qwen_text_to_speech",
     {| instructions := "基于通义千问大模型的语音合成服务，支持多种语言语音合成功能";
        components := [QwenTextToSpeech] |});
    ("modelstudio_wan26_media",
     {| instructions := "基于通义万相大模型2.6版本提供的图像和视频生成服务";
        components := [ImageGenerationWan26; TextToVideoWan26Submit;
                       ImageToVideoWan26Submit; WanVideoFetch; ImageEditWan26;
                       WanImageInterleaveGeneration; VideoToVideoW26Submit] |});
    ("modelstudio_z_image",
     {| instructions := "基于通义Z-Image大模型的智能图像生成服务，是一款轻量级文生图模型，可快速生成图像，支持中英文字渲染，并灵活适配多种分辨率与宽高比例。";
        components := [ZImageGeneration] |})
  ].

(** ** Reading the registry *)

(** Every component class the registry lists, bundle after bundle. *)
Definition registry_components (reg : list (string * McpServerMeta)) : list Component :=
  flat_map (fun kv => components (snd kv)) reg.

(** How many bundles of the registry list the class [c]. *)
Definition bundles_listing (c : Component) (reg : list (string * McpServerMeta)) : nat :=
  length (filter (fun kv => bool_decide (c ∈ components (snd kv))) reg).

(** The names of the bundles that list the class [c]. *)
Definition bundles_of (c : Component) (reg : list (string * McpServerMeta)) : list string :=
  map fst (filter (fun kv => bool_decide (c ∈ components (snd kv))) reg).

(** The classes listed by more than one bundle, each reported once. *)
Definition shared_components (reg : list (string * McpServerMeta)) : list Component :=
  remove_dups (filter (fun c => bool_decide (1 < bundles_listing c reg)%nat)
                      (registry_components reg)).

(** Uniqueness of component names across the registry, for a given
    reading [name] of the class attribute [Component.name]. *)
Definition names_unique (name : Component -> string)
    (reg : list (string * McpServerMeta)) : Prop :=
  NoDup (map name (registry_components reg)).

(** ** Fixtures for concrete runs *)

Definition no_kwargs : Kwargs := {| kw_trace_event := false; kw_model_name := None |}.

Definition world0 : World := {| transport_calls := []; trace_log := [] |}.

(** An environment with a configured key in which every transport is
    answered by the given replies. *)
Definition mock_env (request_id : option string)
    (video : result VideoSynthesisResponse)
    (conversation : result ConversationResponse)
    (post : result ClientResponse) : Env :=
  {| get_api_key := fun _ => Ok "sk-test";
     get_request_id := request_id;
     getenv_IMAGE_TO_VIDEO_KF2V_MODEL_NAME := None;
     urandom16 := 0%N;
     async_call_reply := fun _ => video;
     fetch_reply := fun _ => video;
     conversation_reply := fun _ => conversation;
     post_reply := fun _ => post |}.

(** An environment in which no key is configured. *)
Definition env_without_key : Env :=
  {| get_api_key := fun _ => Raise AssertionError;
     get_request_id := None;
     getenv_IMAGE_TO_VIDEO_KF2V_MODEL_NAME := None;
     urandom16 := 0%N;
     async_call_reply := fun _ => Raise (TransportError "unreachable");
     fetch_reply := fun _ => Raise (TransportError "unreachable");
     conversation_reply := fun _ => Raise (TransportError "unreachable");
     post_reply := fun _ => Raise (TransportError "unreachable") |}.

Definition no_video : result VideoSynthesisResponse := Raise (TransportError "unused").
Definition no_conversation : result ConversationResponse := Raise (TransportError "unused").
Definition no_post : result ClientResponse := Raise (TransportError "unused").

Definition submit_args : ImageToVideoByFirstAndLastFrameWan22SubmitInput :=
  {| si_first_frame_url := "u1"; si_last_frame_url := "u2"; si_prompt := Some "a cat";
     si_negative_prompt := None; si_resolution := None; si_template := None;
     si_prompt_extend := None; si_watermark := None; si_seed := None |}.

Definition fetch_args : ImageToVideoByFirstAndLastFrameWan22FetchInput :=
  {| fi_task_id := "t1" |}.

Definition v2v_args : VideoToVideoGenerationWan26Input :=
  {| vi_prompt := "character1 waves"; vi_reference_video_urls := ["https://x/ref.mp4"];
     vi_negative_prompt := None; vi_size := Some "1920*1080"; vi_duration := Some 5;
     vi_shot_type := Some "single"; vi_watermark := Some false; vi_seed := None |}.

Definition gen_args (size : option string) : ImageGenerationWan26Input :=
  {| gi_prompt := "a cat"; gi_negative_prompt := None; gi_size := size;
     gi_prompt_extend := None; gi_n := Some 1; gi_seed := None; gi_watermark := None |}.

Definition edit_args : ImageGenInput :=
  {| ei_prompt := "a cat"; ei_negative_prompt := None; ei_size := None;
     ei_prompt_extend := None; ei_seed := None; ei_watermark := None; ei_n := Some 1;
     ei_images := ["https://x/in.png"] |}.

(** A choice record whose message carries the given content. *)
Definition choice_with (content : pyval) : pyval :=
  PObj [("finish_reason", PStr "stop");
        ("message", PObj [("role", PStr "assistant"); ("content", content)])].

(** A conversation reply with status 200 and the given choices. *)
Definition conversation_ok (request_id : option string) (choices : list pyval)
    : ConversationResponse :=
  {| cr_status_code := 200; cr_request_id := request_id;
     cr_output := PObj [("choices", PList choices)] |}.

(** A creation reply of the HTTP endpoint: status 200 and a JSON body whose
    [output] reports the given task status. *)
Definition creation_reply (task_status : string) : ClientResponse :=
  {| resp_status := 200;
     resp_text := "";
     resp_json := Ok (PDict [("output", PDict [("task_id", PStr "t1");
                                               ("task_status", PStr task_status)]);
                             ("request_id", PStr "r1")]) |}.

(** A 200 reply of the HTTP endpoint whose JSON body has no [output]. *)
Definition creation_reply_without_output : ClientResponse :=
  {| resp_status := 200;
     resp_text := "";
     resp_json := Ok (PDict [("request_id", PStr "r1")]) |}.

(** A reply of the video synthesis SDK. *)
Definition video_reply (status_code : Z) (request_id : option string)
    (task_status video_url : string) : VideoSynthesisResponse :=
  {| vr_status_code := status_code;
     vr_request_id := request_id;
     vr_output := Some {| vo_task_id := "t1"; vo_task_status := task_status;
                          vo_video_url := video_url |} |}.

(** The id [str(uuid.uuid4())] yields when the random bits are all zero. *)
Definition uuid_of_zero : string := "00000000-0000-4000-8000-000000000000".

(** Two choices that carry three image references between them. *)
Definition three_images_in_two_choices : list pyval :=
  [choice_with (PList [PDict [("image", PStr "https://x/1.png")];
                       PDict [("image", PStr "https://x/2.png")]]);
   choice_with (PList [PDict [("text", PStr "caption")];
                       PDict [("image", PStr "https://x/3.png")]])].

(** ** Reference readings used by the properties *)

(** The artifact references one content item of a text-to-image reply
    offers: the value under ["image"] of a dict item. *)
Definition generation_item_artifacts (item : pyval) : list pyval :=
  match item with
  | PDict l | PObj l => match assoc "image" l with Some v => [v] | None => [] end
  | _ => []
  end.

(** The artifact references of one choice of a text-to-image reply, in the
    order of its content items. *)
Definition generation_choice_artifacts (choice : pyval) : list pyval :=
  match getattr (getattr choice "message" (PDict [])) "content" (PList []) with
  | PList items => flat_map generation_item_artifacts items
  | PStr s => [PStr s]
  | content => generation_item_artifacts content
  end.

(** The same for an image-edit reply, where a string counts only when it
    is an http(s) URL. *)
Definition edit_item_artifacts (item : pyval) : list pyval :=
  match item with
  | PDict l | PObj l => match assoc "image" l with Some v => [v] | None => [] end
  | PStr s => if startswith_http s then [PStr s] else []
  | _ => []
  end.

Definition edit_choice_artifacts (choice : pyval) : list pyval :=
  match getattr (getattr choice "message" (PDict [])) "content" (PList []) with
  | PList items => flat_map edit_item_artifacts items
  | content => edit_item_artifacts content
  end.

(** Encounter order: all choices in order, and within a choice its
    content items in order. *)
Definition in_encounter_order (per_choice : pyval -> list pyval) (choices : list pyval)
    : list pyval :=
  flat_map per_choice choices.

(** The first candidate that is a non-empty string, else the fresh id. *)
Fixpoint first_present (candidates : list (option string)) (fresh : string) : string :=
  match candidates with
  | [] => fresh
  | Some s :: rest => if String.eqb s "" then first_present rest fresh else s
  | None :: rest => first_present rest fresh
  end.

(** * Properties *)

(** ** Request ids *)

Lemma append_sep_nonempty (a b : string) (c : ascii) : a +:+ String c b <> "".
Proof. destruct a; discriminate. Qed.

Lemma str_uuid_nonempty (int : N) : str_uuid int <> "".
Proof. unfold str_uuid. apply (append_sep_nonempty _ _ "-"%char). Qed.

(** ** Running the monad *)

Lemma bind_Ok {A B} (m : M A) (f : A -> M B) (w w' : World) (a : A) :
  m w = (Ok a, w') -> (m ≫= f) w = f a w'.
Proof. intros H. unfold mbind, M_bind. rewrite H. reflexivity. Qed.

Lemma bind_Raise {A B} (m : M A) (f : A -> M B) (w w' : World) (e : exn) :
  m w = (Raise e, w') -> (m ≫= f) w = (Raise e, w').
Proof. intros H. unfold mbind, M_bind. rewrite H. reflexivity. Qed.

Lemma bind_inv {A B} (m : M A) (f : A -> M B) (w w' : World) (b : B) :
  (m ≫= f) w = (Ok b, w') -> exists a w1, m w = (Ok a, w1) /\ f a w1 = (Ok b, w').
Proof.
  unfold mbind, M_bind. destruct (m w) as [[a|e] w1]; intros H.
  - exists a, w1. auto.
  - discriminate.
Qed.

Lemma api_key_configured (env : Env) (kwargs : Kwargs) (w : World) (key : string) :
  get_api_key env kwargs = Ok key -> api_key_or_ValueError env kwargs w = (Ok key, w).
Proof. intros H. unfold api_key_or_ValueError. rewrite H. reflexivity. Qed.

Lemma api_key_missing (env : Env) (kwargs : Kwargs) (w : World) :
  get_api_key env kwargs = Raise AssertionError ->
  api_key_or_ValueError env kwargs w
  = (Raise (ValueError "Please set valid DASHSCOPE_API_KEY!"), w).
Proof. intros H. unfold api_key_or_ValueError. rewrite H. reflexivity. Qed.

(** ** Credentials *)

(** C8.  When the credential lookup fails ([get_api_key] raises
    [AssertionError], which is what each component catches), every one of
    the five operations raises [ValueError("Please set valid
    DASHSCOPE_API_KEY!")] and leaves the world as it found it: no
    transport call is logged, so the transport is invoked zero times. *)
Theorem missing_credential_raises_before_transport
    (env : Env) (kwargs : Kwargs) (w : World) :
  get_api_key env kwargs = Raise AssertionError ->
  let config_error := ValueError "Please set valid DASHSCOPE_API_KEY!" in
  (forall args,
     ImageToVideoByFirstAndLastFrameWan22Submit_arun env args kwargs w
     = (Raise config_error, w))
  /\ (forall args,
     ImageToVideoByFirstAndLastFrameWan22Fetch_arun env args kwargs w
     = (Raise config_error, w))
  /\ (forall args, VideoToVideoW26Submit_arun env args kwargs w = (Raise config_error, w))
  /\ (forall args, ImageGenerationWan26_arun env args kwargs w = (Raise config_error, w))
  /\ (forall args, ImageEditWan26_arun env args kwargs w = (Raise config_error, w)).
Proof.
  intros H config_error.
  repeat split; intros args;
    [ unfold ImageToVideoByFirstAndLastFrameWan22Submit_arun
    | unfold ImageToVideoByFirstAndLastFrameWan22Fetch_arun
    | unfold VideoToVideoW26Submit_arun
    | unfold ImageGenerationWan26_arun
    | unfold ImageEditWan26_arun ];
    cbv zeta; apply bind_Raise, api_key_missing, H.
Qed.

(** Each of the five operations looks the key up first: whatever the
    lookup raises, the run ends there and the world is as it was. *)
Lemma credential_failure_precedes_transport
    (env : Env) (kwargs : Kwargs) (w : World) (e : exn) :
  get_api_key env kwargs = Raise e ->
  exists e',
    (forall args,
       ImageToVideoByFirstAndLastFrameWan22Submit_arun env args kwargs w = (Raise e', w))
    /\ (forall args,
       ImageToVideoByFirstAndLastFrameWan22Fetch_arun env args kwargs w = (Raise e', w))
    /\ (forall args, VideoToVideoW26Submit_arun env args kwargs w = (Raise e', w))
    /\ (forall args, ImageGenerationWan26_arun env args kwargs w = (Raise e', w))
    /\ (forall args, ImageEditWan26_arun env args kwargs w = (Raise e', w)).
Proof.
  intros H.
  assert (Hkey : exists e', api_key_or_ValueError env kwargs w = (Raise e', w)).
  { unfold api_key_or_ValueError. rewrite H. destruct e; eexists; reflexivity. }
  destruct Hkey as [e' Hkey]. exists e'.
  repeat split; intros args;
    [ unfold ImageToVideoByFirstAndLastFrameWan22Submit_arun
    | unfold ImageToVideoByFirstAndLastFrameWan22Fetch_arun
    | unfold VideoToVideoW26Submit_arun
    | unfold ImageGenerationWan26_arun
    | unfold ImageEditWan26_arun ];
    cbv zeta; apply bind_Raise, Hkey.
Qed.

(** The theorem at an environment without a key, starting from an empty
    call log. *)
Lemma missing_credential_witness :
  length (transport_calls world0) = 0%nat
  /\ ImageToVideoByFirstAndLastFrameWan22Submit_arun env_without_key submit_args no_kwargs world0
     = (Raise (ValueError "Please set valid DASHSCOPE_API_KEY!"), world0)
  /\ ImageGenerationWan26_arun env_without_key (gen_args None) no_kwargs world0
     = (Raise (ValueError "Please set valid DASHSCOPE_API_KEY!"), world0).
Proof.
  pose proof (missing_credential_raises_before_transport
                env_without_key no_kwargs world0 eq_refl) as H.
  cbv zeta in H. destruct H as (H1 & _ & _ & H4 & _).
  split; [reflexivity|]. split; [apply H1 | apply H4].
Defined.

(** ** The payload of the text-to-image call *)

(** Unfolds the monad's operations and splits on every test that is left. *)
Ltac run_cases :=
  unfold mbind, mret, M_bind, M_ret, try_except, transport, on_log, raise, lift;
  cbn;
  repeat (case_match; simplify_eq; cbn in *);
  try reflexivity; try congruence.

(** With a configured key, the text-to-image component makes exactly one
    transport call, whatever the reply, and its arguments are
    [ImageGenerationWan26_call]. *)
Lemma ImageGenerationWan26_transport_call
    (env : Env) (args : ImageGenerationWan26Input) (kwargs : Kwargs) (w : World)
    (key : string) :
  get_api_key env kwargs = Ok key ->
  transport_calls (snd (ImageGenerationWan26_arun env args kwargs w))
  = (transport_calls w ++ [CConversation (ImageGenerationWan26_call key args)])%list.
Proof.
  intros Hkey. unfold ImageGenerationWan26_arun. cbv zeta.
  erewrite bind_Ok by (apply api_key_configured, Hkey). cbv beta zeta.
  generalize (ImageGenerationWan26_call key args). intros c.
  destruct (conversation_reply env c) as [response|e];
    unfold mbind, M_bind, try_except, transport; [|reflexivity].
  run_cases.
Qed.

Lemma size_parameter (args : ImageGenerationWan26Input) :
  ImageGenerationWan26_parameters args !! "size"
  = match gi_size args with
    | Some size =>
        if negb (String.eqb size "") && negb (String.eqb size "1024*1024")
        then Some (PStr size) else None
    | None => None
    end.
Proof.
  unfold ImageGenerationWan26_parameters, set_if_not_None, set_if_truthy, set_if.
  cbv zeta.
  repeat (case_match; simplify_map_eq); reflexivity.
Qed.

(** C9.  With a configured key, [ImageGenerationWan26.arun] hands the SDK
    one call; when the caller's [size] is exactly ["1024*1024"] that
    call's parameters have no ["size"] entry, and every other non-empty
    [size] is forwarded as it was given. *)
Theorem ImageGenerationWan26_size_forwarding
    (env : Env) (args : ImageGenerationWan26Input) (kwargs : Kwargs) (w : World)
    (key : string) :
  get_api_key env kwargs = Ok key ->
  exists c,
    transport_calls (snd (ImageGenerationWan26_arun env args kwargs w))
    = (transport_calls w ++ [CConversation c])%list
    /\ (gi_size args = Some "1024*1024" -> cc_parameters c !! "size" = None)
    /\ (forall size, gi_size args = Some size -> size <> "" -> size <> "1024*1024" ->
        cc_parameters c !! "size" = Some (PStr size)).
Proof.
  intros Hkey. exists (ImageGenerationWan26_call key args).
  split; [apply ImageGenerationWan26_transport_call, Hkey|].
  unfold ImageGenerationWan26_call. cbn [cc_parameters].
  rewrite size_parameter. split.
  - intros ->. reflexivity.
  - intros size -> Hne Hdef.
    destruct (String.eqb_spec size ""); [contradiction|].
    destruct (String.eqb_spec size "1024*1024"); [contradiction|].
    reflexivity.
Qed.

(** The theorem at [size = "1280*1280"]. *)
Lemma ImageGenerationWan26_size_forwarding_witness :
  exists c,
    transport_calls
      (snd (ImageGenerationWan26_arun
              (mock_env None no_video no_conversation no_post)
              (gen_args (Some "1280*1280")) no_kwargs world0))
    = [CConversation c]
    /\ cc_parameters c !! "size" = Some (PStr "1280*1280").
Proof.
  destruct (ImageGenerationWan26_size_forwarding
              (mock_env None no_video no_conversation no_post)
              (gen_args (Some "1280*1280")) no_kwargs world0 "sk-test" eq_refl)
    as (c & Hcalls & _ & Hfwd).
  exists c. split; [exact Hcalls|].
  apply Hfwd; [reflexivity | discriminate | discriminate].
Defined.

(** ** Submitting a task *)

Lemma str_in_terminal (s : string) :
  s = "FAILED" \/ s = "CANCELED" -> str_in s ["FAILED"; "CANCELED"] = true.
Proof. intros [-> | ->]; reflexivity. Qed.

(** The keyframe-to-video submit rejects every reply that reports
    [FAILED] or [CANCELED], whatever its status code: it raises and returns
    no output. *)
Lemma Wan22Submit_terminal_status_raises
    (env : Env) (args : ImageToVideoByFirstAndLastFrameWan22SubmitInput)
    (kwargs : Kwargs) (w : World) (key : string)
    (response : VideoSynthesisResponse) (output : VideoSynthesisOutput) :
  get_api_key env kwargs = Ok key ->
  (forall c, async_call_reply env c = Ok response) ->
  vr_output response = Some output ->
  vo_task_status output = "FAILED" \/ vo_task_status output = "CANCELED" ->
  fst (ImageToVideoByFirstAndLastFrameWan22Submit_arun env args kwargs w)
  = Raise (RuntimeError "Failed to submit keyframe-to-video task: ").
Proof.
  intros Hkey Hreply Hout Hst.
  unfold ImageToVideoByFirstAndLastFrameWan22Submit_arun. cbv zeta.
  erewrite bind_Ok by (apply api_key_configured, Hkey). cbv beta.
  assert (Hrej : video_reply_rejected response = true).
  { unfold video_reply_rejected. rewrite Hout, (str_in_terminal _ Hst).
    apply orb_true_r. }
  unfold mbind, M_bind, transport. rewrite Hreply.
  destruct (kw_trace_event kwargs); cbn; rewrite Hrej; reflexivity.
Qed.

(** The keyframe-to-video submit turns a reply without [output] into the
    same [RuntimeError]. *)
Lemma Wan22Submit_missing_output_raises
    (env : Env) (args : ImageToVideoByFirstAndLastFrameWan22SubmitInput)
    (kwargs : Kwargs) (w : World) (key : string) (response : VideoSynthesisResponse) :
  get_api_key env kwargs = Ok key ->
  (forall c, async_call_reply env c = Ok response) ->
  vr_output response = None ->
  fst (ImageToVideoByFirstAndLastFrameWan22Submit_arun env args kwargs w)
  = Raise (RuntimeError "Failed to submit keyframe-to-video task: ").
Proof.
  intros Hkey Hreply Hout.
  unfold ImageToVideoByFirstAndLastFrameWan22Submit_arun. cbv zeta.
  erewrite bind_Ok by (apply api_key_configured, Hkey). cbv beta.
  assert (Hrej : video_reply_rejected response = true).
  { unfold video_reply_rejected. rewrite Hout. apply orb_true_r. }
  unfold mbind, M_bind, transport. rewrite Hreply.
  destruct (kw_trace_event kwargs); cbn; rewrite Hrej; reflexivity.
Qed.

(** The reference-video submit returns the task id of every 200 reply
    whose body has one, whatever else the body reports. *)
Lemma VideoToVideoW26Submit_returns_task_id
    (env : Env) (args : VideoToVideoGenerationWan26Input) (kwargs : Kwargs) (w : World)
    (key : string) (resp : ClientResponse) (body output : list (string * pyval))
    (task_id : string) :
  get_api_key env kwargs = Ok key ->
  (forall c, post_reply env c = Ok resp) ->
  resp_status resp = HTTPStatus_OK ->
  resp_json resp = Ok (PDict body) ->
  assoc "output" body = Some (PDict output) ->
  assoc "task_id" output = Some (PStr task_id) ->
  fst (VideoToVideoW26Submit_arun env args kwargs w)
  = Ok {| vto_task_id := task_id;
          vto_request_id :=
            or_str (get_request_id env) (Some (str_uuid (uuid4 (urandom16 env)))) |}.
Proof.
  intros Hkey Hreply Hstatus Hjson Hout Hid.
  unfold VideoToVideoW26Submit_arun. cbv zeta.
  erewrite bind_Ok by (apply api_key_configured, Hkey). cbv beta.
  unfold mbind, M_bind, transport, lift, getitem.
  rewrite Hreply, Hstatus, Hjson. cbn. rewrite Hout, Hid. reflexivity.
Qed.

(** C1.  The reference-video submit does not look at [task_status]: on a
    200 reply whose body reports [FAILED] (or [CANCELED]) it returns a
    task handle carrying the task id, where the keyframe-to-video submit
    raises. *)
Theorem VideoToVideoW26Submit_returns_handle_on_terminal_status :
  fst (VideoToVideoW26Submit_arun
         (mock_env None no_video no_conversation (Ok (creation_reply "FAILED")))
         v2v_args no_kwargs world0)
  = Ok {| vto_task_id := "t1"; vto_request_id := Some uuid_of_zero |}
  /\ fst (VideoToVideoW26Submit_arun
            (mock_env None no_video no_conversation (Ok (creation_reply "CANCELED")))
            v2v_args no_kwargs world0)
     = Ok {| vto_task_id := "t1"; vto_request_id := Some uuid_of_zero |}.
Proof. split; vm_compute; reflexivity. Qed.

(** C4.  On a 200 reply whose JSON body has no [output] entry the
    reference-video submit lets the [KeyError] of
    [response_json["output"]] escape, where the keyframe-to-video submit
    raises its [RuntimeError]. *)
Theorem VideoToVideoW26Submit_missing_output_KeyError :
  fst (VideoToVideoW26Submit_arun
         (mock_env None no_video no_conversation (Ok creation_reply_without_output))
         v2v_args no_kwargs world0)
  = Raise (KeyError "output").
Proof. vm_compute. reflexivity. Qed.

(** ** Fetching a result *)

Lemma str_in_non_terminal (s : string) :
  s = "PENDING" \/ s = "RUNNING" \/ s = "UNKNOWN" ->
  str_in s ["FAILED"; "CANCELED"] = false.
Proof. intros [-> | [-> | ->]]; reflexivity. Qed.

(** C3.  When the provider's reply to a fetch arrives with status 200 and
    its output carries a non-terminal status ([PENDING], [RUNNING] or
    [UNKNOWN]), [ImageToVideoByFirstAndLastFrameWan22Fetch.arun] raises
    nothing: it returns an output whose [task_status] is that status (the
    non-terminal indication), with the reply's task id and video URL, after
    exactly one transport call. *)
Theorem Wan22Fetch_non_terminal_returns
    (env : Env) (args : ImageToVideoByFirstAndLastFrameWan22FetchInput)
    (kwargs : Kwargs) (w : World) (key : string)
    (response : VideoSynthesisResponse) (output : VideoSynthesisOutput) :
  get_api_key env kwargs = Ok key ->
  fetch_reply env {| fc_api_key := key; fc_task := fi_task_id args |} = Ok response ->
  vr_status_code response = HTTPStatus_OK ->
  vr_output response = Some output ->
  vo_task_status output = "PENDING" \/ vo_task_status output = "RUNNING"
    \/ vo_task_status output = "UNKNOWN" ->
  exists out w',
    ImageToVideoByFirstAndLastFrameWan22Fetch_arun env args kwargs w = (Ok out, w')
    /\ fo_task_status out = vo_task_status output
    /\ fo_task_id out = vo_task_id output
    /\ fo_video_url out = vo_video_url output
    /\ transport_calls w'
       = (transport_calls w
          ++ [CFetch {| fc_api_key := key; fc_task := fi_task_id args |}])%list.
Proof.
  intros Hkey Hreply Hcode Hout Hst.
  unfold ImageToVideoByFirstAndLastFrameWan22Fetch_arun. cbv zeta.
  erewrite bind_Ok by (apply api_key_configured, Hkey). cbv beta.
  assert (Hrej : video_reply_rejected response = false).
  { unfold video_reply_rejected.
    rewrite Hcode, Hout, (str_in_non_terminal _ Hst). reflexivity. }
  unfold mbind, M_bind, transport. rewrite Hreply.
  destruct (kw_trace_event kwargs); cbn; rewrite Hrej;
    unfold output_of; rewrite Hout; cbn;
    eexists _, _; repeat split; reflexivity.
Qed.

(** The theorem at a 200 reply that reports [RUNNING]. *)
Lemma Wan22Fetch_non_terminal_witness :
  exists out w',
    ImageToVideoByFirstAndLastFrameWan22Fetch_arun
      (mock_env None (Ok (video_reply 200 (Some "r1") "RUNNING" "")) no_conversation no_post)
      fetch_args no_kwargs world0 = (Ok out, w')
    /\ fo_task_status out = "RUNNING"
    /\ length (transport_calls w') = 1%nat.
Proof.
  destruct (Wan22Fetch_non_terminal_returns
              (mock_env None (Ok (video_reply 200 (Some "r1") "RUNNING" ""))
                        no_conversation no_post)
              fetch_args no_kwargs world0 "sk-test"
              (video_reply 200 (Some "r1") "RUNNING" "")
              {| vo_task_id := "t1"; vo_task_status := "RUNNING"; vo_video_url := "" |}
              eq_refl eq_refl eq_refl eq_refl (or_intror (or_introl eq_refl)))
    as (out & w' & Hrun & Hst & _ & _ & Hcalls).
  exists out, w'. split; [exact Hrun|]. split; [exact Hst|].
  rewrite Hcalls. reflexivity.
Defined.

(** A reply that did not arrive with status 200 is a transport failure:
    the fetch rejects it whatever else it holds. *)
Lemma Wan22Fetch_transport_failure_raises :
  fst (ImageToVideoByFirstAndLastFrameWan22Fetch_arun
         (mock_env None (Ok (video_reply 500 (Some "r1") "PENDING" "")) no_conversation no_post)
         fetch_args no_kwargs world0)
  = Raise (RuntimeError "Failed to fetch keyframe-to-video result: ").
Proof. vm_compute. reflexivity. Qed.

(** ** Results without an artifact *)

Lemma validate_str_list_length (field : string) (l : list pyval) (ss : list string) :
  validate_str_list field l = Ok ss -> length ss = length l.
Proof.
  revert ss. induction l as [|v l IH]; intros ss H; cbn in H.
  - inversion H. reflexivity.
  - destruct (validate_str field v); [|discriminate].
    destruct (validate_str_list field l) as [ss'|]; [|discriminate].
    inversion H. cbn. f_equal. apply IH. reflexivity.
Qed.

(** The text-to-image component never returns an empty result list. *)
Lemma ImageGenerationWan26_results_nonempty
    (env : Env) (args : ImageGenerationWan26Input) (kwargs : Kwargs) (w w' : World)
    (out : ImageGenerationWan26Output) :
  ImageGenerationWan26_arun env args kwargs w = (Ok out, w') -> go_results out <> [].
Proof.
  unfold ImageGenerationWan26_arun. cbv zeta. intros H.
  apply bind_inv in H as (key & w1 & _ & H).
  apply bind_inv in H as (response & w2 & _ & H).
  destruct (_ || _); [discriminate|].
  apply bind_inv in H as (results & w3 & _ & H).
  destruct results as [|r results]; [discriminate|]. cbn [truthy negb] in H.
  apply bind_inv in H as (? & w4 & _ & H).
  apply bind_inv in H as (ss & w5 & Hval & H).
  inversion H; subst. cbn.
  assert (Hv : validate_str_list "results" (r :: results) = Ok ss)
    by (unfold lift in Hval; congruence).
  apply validate_str_list_length in Hv. intros ->. discriminate.
Qed.

(** Neither does the image-edit component. *)
Lemma ImageEditWan26_results_nonempty
    (env : Env) (args : ImageGenInput) (kwargs : Kwargs) (w w' : World)
    (out : ImageGenOutput) :
  ImageEditWan26_arun env args kwargs w = (Ok out, w') -> eo_results out <> [].
Proof.
  unfold ImageEditWan26_arun. cbv zeta. intros H.
  apply bind_inv in H as (key & w1 & _ & H).
  apply bind_inv in H as (response & w2 & _ & H).
  destruct (_ || _); [discriminate|].
  apply bind_inv in H as (results & w3 & _ & H).
  destruct results as [|r results]; [discriminate|]. cbn [truthy negb] in H.
  apply bind_inv in H as (? & w4 & _ & H).
  apply bind_inv in H as (ss & w5 & Hval & H).
  inversion H; subst. cbn.
  assert (Hv : validate_str_list "results" (r :: results) = Ok ss)
    by (unfold lift in Hval; congruence).
  apply validate_str_list_length in Hv. intros ->. discriminate.
Qed.

(** C5.  The keyframe-to-video fetch has no such check: on a 200 reply
    whose status is [SUCCEEDED] and whose [video_url] is empty it returns
    an output with the empty URL, where the two image components raise
    when they find no artifact. *)
Theorem Wan22Fetch_returns_success_without_artifact :
  fst (ImageToVideoByFirstAndLastFrameWan22Fetch_arun
         (mock_env None (Ok (video_reply 200 (Some "r1") "SUCCEEDED" ""))
                   no_conversation no_post)
         fetch_args no_kwargs world0)
  = Ok {| fo_video_url := ""; fo_task_id := "t1"; fo_task_status := "SUCCEEDED";
          fo_request_id := Some "r1" |}.
Proof. vm_compute. reflexivity. Qed.

(** ** Where the returned request id comes from *)

Lemma first_present_nonempty (candidates : list (option string)) (fresh : string) :
  fresh <> "" -> first_present candidates fresh <> "".
Proof.
  intros Hfresh. induction candidates as [|[s|] rest IH]; cbn; auto.
  destruct (String.eqb_spec s ""); auto.
Qed.

Lemma or_str_fresh (a : option string) (fresh : string) :
  or_str a (Some fresh) = Some (first_present [a] fresh).
Proof.
  unfold or_str. destruct a as [s|]; cbn; [|reflexivity].
  destruct (String.eqb s ""); reflexivity.
Qed.

Lemma or_str_twice (a b : option string) (fresh : string) :
  or_str a (or_str b (Some fresh)) = Some (first_present [a; b] fresh).
Proof.
  rewrite or_str_fresh. unfold or_str.
  destruct a as [s|]; cbn; [|reflexivity].
  destruct (String.eqb s ""); reflexivity.
Qed.

Lemma context_then_provider (context provider : option string) (fresh : string) :
  (if negb (truthy_str context) then or_str provider (Some fresh) else context)
  = Some (first_present [context; provider] fresh).
Proof.
  rewrite or_str_fresh.
  destruct context as [s|]; cbn; [|reflexivity].
  destruct (String.eqb s ""); reflexivity.
Qed.

Lemma transport_inv {R} (c : call) (reply : result R) (w w' : World) (r : R) :
  transport c reply w = (Ok r, w') -> reply = Ok r.
Proof. unfold transport. intros H. inversion H. reflexivity. Qed.

Lemma try_transport_inv {R} (c : call) (reply : result R) (wrap : exn -> exn)
    (w w' : World) (r : R) :
  try_except (transport c reply) (fun e => raise (wrap e)) w = (Ok r, w') ->
  reply = Ok r.
Proof.
  unfold try_except, transport, raise. destruct reply as [r'|e]; intros H.
  - inversion H. reflexivity.
  - discriminate.
Qed.

(** C6 (as the code has it).  Every successful call returns a request id
    that is a non-empty string.  The keyframe-to-video submit and the two
    image components take it from the tracing context when that is
    non-empty, else from the provider's reply, else from a fresh uuid; the
    keyframe-to-video fetch asks the provider's reply first, then the
    context, then the fresh uuid; the reference-video submit returns the
    context's id whenever that is non-empty. *)
Theorem request_id_of_successful_call (env : Env) (kwargs : Kwargs) (w w' : World) :
  let context := get_request_id env in
  let fresh := str_uuid (uuid4 (urandom16 env)) in
  (forall args out,
     ImageToVideoByFirstAndLastFrameWan22Submit_arun env args kwargs w = (Ok out, w') ->
     exists c response s,
       async_call_reply env c = Ok response
       /\ so_request_id out = Some s /\ s <> ""
       /\ s = first_present [context; vr_request_id response] fresh)
  /\ (forall args out,
     ImageToVideoByFirstAndLastFrameWan22Fetch_arun env args kwargs w = (Ok out, w') ->
     exists c response s,
       fetch_reply env c = Ok response
       /\ fo_request_id out = Some s /\ s <> ""
       /\ s = first_present [vr_request_id response; context] fresh)
  /\ (forall args out,
     VideoToVideoW26Submit_arun env args kwargs w = (Ok out, w') ->
     exists s,
       vto_request_id out = Some s /\ s <> ""
       /\ (truthy_str context = true -> context = Some s))
  /\ (forall args out,
     ImageGenerationWan26_arun env args kwargs w = (Ok out, w') ->
     exists c response s,
       conversation_reply env c = Ok response
       /\ go_request_id out = Some s /\ s <> ""
       /\ s = first_present [context; cr_request_id response] fresh)
  /\ (forall args out,
     ImageEditWan26_arun env args kwargs w = (Ok out, w') ->
     exists c response s,
       conversation_reply env c = Ok response
       /\ eo_request_id out = Some s /\ s <> ""
       /\ s = first_present [context; cr_request_id response] fresh).
Proof.
  cbv zeta.
  pose proof (str_uuid_nonempty (uuid4 (urandom16 env))) as Hfresh.
  repeat apply conj; intros args out H.
  - unfold ImageToVideoByFirstAndLastFrameWan22Submit_arun in H. cbv zeta in H.
    apply bind_inv in H as (key & w1 & _ & H).
    apply bind_inv in H as (response & w2 & Hreply & H).
    apply transport_inv in Hreply.
    apply bind_inv in H as (? & w3 & _ & H).
    destruct (video_reply_rejected response); [discriminate|].
    apply bind_inv in H as (output & w4 & _ & H).
    inversion H; subst; cbn.
    eexists _, response, _. split; [exact Hreply|].
    fold (or_str (vr_request_id response) (Some (str_uuid (uuid4 (urandom16 env))))).
    rewrite context_then_provider.
    split; [reflexivity|]. split; [|reflexivity].
    apply first_present_nonempty, Hfresh.
  - unfold ImageToVideoByFirstAndLastFrameWan22Fetch_arun in H. cbv zeta in H.
    apply bind_inv in H as (key & w1 & _ & H).
    apply bind_inv in H as (response & w2 & Hreply & H).
    apply transport_inv in Hreply.
    apply bind_inv in H as (? & w3 & _ & H).
    destruct (video_reply_rejected response); [discriminate|].
    apply bind_inv in H as (output & w4 & _ & H).
    inversion H; subst; cbn.
    eexists _, response, _. split; [exact Hreply|].
    rewrite or_str_twice.
    split; [reflexivity|]. split; [|reflexivity].
    apply first_present_nonempty, Hfresh.
  - unfold VideoToVideoW26Submit_arun in H. cbv zeta in H.
    apply bind_inv in H as (key & w1 & _ & H).
    apply bind_inv in H as (resp & w2 & _ & H).
    apply bind_inv in H as (task_id & w3 & _ & H).
    apply bind_inv in H as (task_id' & w4 & _ & H).
    inversion H; subst; cbn.
    rewrite or_str_fresh.
    eexists. split; [reflexivity|]. split.
    + apply first_present_nonempty, Hfresh.
    + destruct (get_request_id env) as [s|]; cbn; [|discriminate].
      destruct (String.eqb s ""); [discriminate|reflexivity].
  - unfold ImageGenerationWan26_arun in H. cbv zeta in H.
    apply bind_inv in H as (key & w1 & _ & H).
    apply bind_inv in H as (response & w2 & Hreply & H).
    apply try_transport_inv in Hreply.
    destruct (_ || _); [discriminate|].
    apply bind_inv in H as (results & w3 & _ & H).
    destruct (negb (truthy (PList results))); [discriminate|].
    apply bind_inv in H as (? & w4 & _ & H).
    apply bind_inv in H as (ss & w5 & _ & H).
    inversion H; subst; cbn.
    eexists _, response, _. split; [exact Hreply|].
    rewrite context_then_provider.
    split; [reflexivity|]. split; [|reflexivity].
    apply first_present_nonempty, Hfresh.
  - unfold ImageEditWan26_arun in H. cbv zeta in H.
    apply bind_inv in H as (key & w1 & _ & H).
    apply bind_inv in H as (response & w2 & Hreply & H).
    apply try_transport_inv in Hreply.
    destruct (_ || _); [discriminate|].
    apply bind_inv in H as (results & w3 & _ & H).
    destruct (negb (truthy (PList results))); [discriminate|].
    apply bind_inv in H as (? & w4 & _ & H).
    apply bind_inv in H as (ss & w5 & _ & H).
    inversion H; subst; cbn.
    eexists _, response, _. split; [exact Hreply|].
    rewrite context_then_provider.
    split; [reflexivity|]. split; [|reflexivity].
    apply first_present_nonempty, Hfresh.
Qed.

(** The theorem at a submit whose context and provider reply carry no id:
    the fresh uuid is returned. *)
Lemma request_id_of_successful_call_witness :
  exists out w',
    ImageToVideoByFirstAndLastFrameWan22Submit_arun
      (mock_env None (Ok (video_reply 200 None "PENDING" "")) no_conversation no_post)
      submit_args no_kwargs world0 = (Ok out, w')
    /\ so_request_id out = Some uuid_of_zero /\ uuid_of_zero <> "".
Proof.
  set (env := mock_env None (Ok (video_reply 200 None "PENDING" "")) no_conversation no_post).
  set (run := ImageToVideoByFirstAndLastFrameWan22Submit_arun env submit_args no_kwargs world0).
  set (out := {| so_task_id := "t1"; so_task_status := "PENDING";
                 so_request_id := Some uuid_of_zero |}).
  assert (Hrun : run = (Ok out, snd run)) by (vm_compute; reflexivity).
  pose proof (request_id_of_successful_call env no_kwargs world0 (snd run)) as H.
  cbv zeta in H. destruct H as (Hsubmit & _).
  destruct (Hsubmit submit_args out Hrun) as (c & response & s & _ & Hid & Hne & _).
  exists out, (snd run). split; [exact Hrun|]. split; [reflexivity|].
  cbn in Hid. injection Hid as ->. exact Hne.
Defined.

(** C6, against the order the claim gives.  With a tracing context id
    ["ctx-1"] and a provider reply carrying ["req-1"], the fetch returns
    the provider's id, not the context's; and with no context id the
    reference-video submit returns a fresh uuid although the provider's
    body carries ["r1"]. *)
Lemma request_id_precedence_differs :
  fst (ImageToVideoByFirstAndLastFrameWan22Fetch_arun
         (mock_env (Some "ctx-1")
                   (Ok (video_reply 200 (Some "req-1") "SUCCEEDED" "https://x/video.mp4"))
                   no_conversation no_post)
         fetch_args no_kwargs world0)
  = Ok {| fo_video_url := "https://x/video.mp4"; fo_task_id := "t1";
          fo_task_status := "SUCCEEDED"; fo_request_id := Some "req-1" |}
  /\ fst (VideoToVideoW26Submit_arun
            (mock_env None no_video no_conversation (Ok (creation_reply "PENDING")))
            v2v_args no_kwargs world0)
     = Ok {| vto_task_id := "t1"; vto_request_id := Some uuid_of_zero |}.
Proof. split; vm_compute; reflexivity. Qed.

(** ** Collecting the artifacts of a reply *)

Section Collect.

(** A loop body that appends what a reference reading lists. *)
Variable body : list pyval -> pyval -> result (list pyval).
Variable listed : pyval -> list pyval.
Hypothesis body_appends :
  forall results x, body results x = Ok (results ++ listed x)%list.

Lemma for_each_appends (l : list pyval) (results : list pyval) :
  for_each body l results = Ok (results ++ flat_map listed l)%list.
Proof.
  revert results. induction l as [|x l IH]; intros results; cbn.
  - rewrite app_nil_r. reflexivity.
  - rewrite body_appends, IH, <- app_assoc. reflexivity.
Qed.

End Collect.

Lemma ImageGenerationWan26_visit_item_appends (results : list pyval) (item : pyval) :
  ImageGenerationWan26_visit_item results item
  = Ok (results ++ generation_item_artifacts item)%list.
Proof.
  unfold ImageGenerationWan26_visit_item, append.
  destruct item; cbn; rewrite ?app_nil_r; try reflexivity;
    (destruct (assoc "image" _); cbn; rewrite ?app_nil_r; reflexivity).
Qed.

Lemma ImageGenerationWan26_visit_choice_appends (results : list pyval) (choice : pyval) :
  ImageGenerationWan26_visit_choice results choice
  = Ok (results ++ generation_choice_artifacts choice)%list.
Proof.
  unfold ImageGenerationWan26_visit_choice, generation_choice_artifacts, append.
  cbv zeta.
  destruct (getattr (getattr choice "message" (PDict [])) "content" (PList []))
    as [| | | |items|entries|attrs]; cbn; rewrite ?app_nil_r; try reflexivity.
  - apply for_each_appends, ImageGenerationWan26_visit_item_appends.
  - destruct (assoc "image" entries); cbn; rewrite ?app_nil_r; reflexivity.
  - destruct (assoc "image" attrs); cbn; rewrite ?app_nil_r; reflexivity.
Qed.

Lemma ImageEditWan26_visit_item_appends (results : list pyval) (item : pyval) :
  ImageEditWan26_visit_item results item
  = Ok (results ++ edit_item_artifacts item)%list.
Proof.
  unfold ImageEditWan26_visit_item, append.
  destruct item; cbn; rewrite ?app_nil_r; try reflexivity.
  - destruct (startswith_http s); cbn; rewrite ?app_nil_r; reflexivity.
  - destruct (assoc "image" _); cbn; rewrite ?app_nil_r; reflexivity.
  - destruct (assoc "image" _); cbn; rewrite ?app_nil_r; reflexivity.
Qed.

Lemma ImageEditWan26_visit_choice_appends (results : list pyval) (choice : pyval) :
  ImageEditWan26_visit_choice results choice
  = Ok (results ++ edit_choice_artifacts choice)%list.
Proof.
  unfold ImageEditWan26_visit_choice, edit_choice_artifacts, append.
  cbv zeta.
  destruct (getattr (getattr choice "message" (PDict [])) "content" (PList []))
    as [| | |s|items|entries|attrs]; cbn; rewrite ?app_nil_r; try reflexivity.
  - destruct (startswith_http s); cbn; rewrite ?app_nil_r; reflexivity.
  - apply for_each_appends, ImageEditWan26_visit_item_appends.
  - destruct (assoc "image" entries); cbn; rewrite ?app_nil_r; reflexivity.
  - destruct (assoc "image" attrs); cbn; rewrite ?app_nil_r; reflexivity.
Qed.

(** The parsers of the two wan2.6 image components, on a reply whose
    output is an object with a list of choices. *)
Lemma ImageGenerationWan26_parse_choices
    (response : ConversationResponse) (attrs : list (string * pyval))
    (choices : list pyval) :
  cr_output response = PObj attrs ->
  assoc "choices" attrs = Some (PList choices) ->
  ImageGenerationWan26_parse response
  = Ok (in_encounter_order generation_choice_artifacts choices).
Proof.
  intros Hout Hchoices. unfold ImageGenerationWan26_parse. cbv zeta.
  rewrite Hout. cbn. rewrite Hchoices.
  destruct attrs as [|a attrs']; [discriminate|]. cbn.
  apply (for_each_appends _ _ ImageGenerationWan26_visit_choice_appends).
Qed.

Lemma ImageEditWan26_parse_choices
    (response : ConversationResponse) (attrs : list (string * pyval))
    (choices : list pyval) :
  cr_output response = PObj attrs ->
  assoc "choices" attrs = Some (PList choices) ->
  ImageEditWan26_parse response
  = Ok (in_encounter_order edit_choice_artifacts choices).
Proof.
  intros Hout Hchoices. unfold ImageEditWan26_parse. cbv zeta.
  rewrite Hout. cbn. rewrite Hchoices.
  destruct attrs as [|a attrs']; [discriminate|]. cbn.
  destruct choices as [|choice choices]; [reflexivity|].
  apply (for_each_appends _ _ ImageEditWan26_visit_choice_appends).
Qed.

Lemma validate_str_list_map_PStr (field : string) (urls : list string) :
  validate_str_list field (map PStr urls) = Ok urls.
Proof. induction urls as [|u urls IH]; cbn; [|rewrite IH]; reflexivity. Qed.

Lemma try_transport_Ok {R} (c : call) (reply : result R) (handler : exn -> M R)
    (w : World) (r : R) :
  reply = Ok r ->
  try_except (transport c reply) handler w
  = (Ok r, {| transport_calls := (transport_calls w ++ [c])%list;
              trace_log := trace_log w |}).
Proof. intros ->. reflexivity. Qed.

Lemma truthy_output (attrs : list (string * pyval)) (v : pyval) :
  assoc "choices" attrs = Some v -> truthy (PObj attrs) = true.
Proof. destruct attrs; [discriminate|reflexivity]. Qed.

Lemma truthy_results (urls : list string) :
  urls <> [] -> negb (truthy (PList (map PStr urls))) = false.
Proof. destruct urls; [contradiction|reflexivity]. Qed.

(** C7.  Take a reply with status 200 whose output lists choice records.
    When the artifact references found in those choices (all choices in
    order, and within each choice its content items in order) are the
    strings [urls], and there is at least one, the text-to-image component
    and the image-edit component both return exactly [urls] as their
    results: every reference, in encounter order, none dropped. *)
Theorem wan26_results_in_encounter_order
    (env : Env) (kwargs : Kwargs) (w : World) (key : string)
    (response : ConversationResponse) (attrs : list (string * pyval))
    (choices : list pyval) :
  get_api_key env kwargs = Ok key ->
  (forall c, conversation_reply env c = Ok response) ->
  cr_status_code response = 200 ->
  cr_output response = PObj attrs ->
  assoc "choices" attrs = Some (PList choices) ->
  (forall args urls,
     in_encounter_order generation_choice_artifacts choices = map PStr urls ->
     urls <> [] ->
     exists out w',
       ImageGenerationWan26_arun env args kwargs w = (Ok out, w')
       /\ go_results out = urls)
  /\ (forall args urls,
     in_encounter_order edit_choice_artifacts choices = map PStr urls ->
     urls <> [] ->
     exists out w',
       ImageEditWan26_arun env args kwargs w = (Ok out, w')
       /\ eo_results out = urls).
Proof.
  intros Hkey Hreply Hcode Hout Hchoices.
  pose proof (truthy_output _ _ Hchoices) as Htruthy.
  split; intros args urls Hurls Hne.
  - unfold ImageGenerationWan26_arun. cbv zeta.
    erewrite bind_Ok by (apply api_key_configured, Hkey). cbv beta.
    erewrite bind_Ok by (apply try_transport_Ok, Hreply).
    rewrite Hcode, Hout, Htruthy. cbn [Z.eqb Pos.eqb negb orb].
    rewrite (ImageGenerationWan26_parse_choices _ _ _ Hout Hchoices), Hurls.
    erewrite bind_Ok by reflexivity.
    rewrite (truthy_results _ Hne).
    destruct (kw_trace_event kwargs);
      (erewrite bind_Ok by reflexivity);
      (erewrite bind_Ok by (unfold lift; rewrite validate_str_list_map_PStr; reflexivity));
      eexists _, _; split; reflexivity.
  - unfold ImageEditWan26_arun. cbv zeta.
    erewrite bind_Ok by (apply api_key_configured, Hkey). cbv beta.
    erewrite bind_Ok by (apply try_transport_Ok, Hreply).
    rewrite Hcode, Hout, Htruthy. cbn [Z.eqb Pos.eqb negb orb].
    rewrite (ImageEditWan26_parse_choices _ _ _ Hout Hchoices), Hurls.
    erewrite bind_Ok by reflexivity.
    rewrite (truthy_results _ Hne).
    destruct (kw_trace_event kwargs);
      (erewrite bind_Ok by reflexivity);
      (erewrite bind_Ok by (unfold lift; rewrite validate_str_list_map_PStr; reflexivity));
      eexists _, _; split; reflexivity.
Qed.

(** The theorem at a reply with three image references in two choices. *)
Lemma wan26_results_in_encounter_order_witness :
  let env := mock_env None no_video
               (Ok (conversation_ok (Some "r1") three_images_in_two_choices)) no_post in
  let urls := ["https://x/1.png"; "https://x/2.png"; "https://x/3.png"] in
  (exists out w',
     ImageGenerationWan26_arun env (gen_args None) no_kwargs world0 = (Ok out, w')
     /\ go_results out = urls)
  /\ (exists out w',
     ImageEditWan26_arun env edit_args no_kwargs world0 = (Ok out, w')
     /\ eo_results out = urls).
Proof.
  intros env urls.
  destruct (wan26_results_in_encounter_order env no_kwargs world0 "sk-test"
              (conversation_ok (Some "r1") three_images_in_two_choices)
              [("choices", PList three_images_in_two_choices)]
              three_images_in_two_choices
              eq_refl (fun _ => eq_refl) eq_refl eq_refl eq_refl) as [Hgen Hedit].
  split.
  - apply Hgen; [reflexivity | discriminate].
  - apply Hedit; [reflexivity | discriminate].
Defined.

Lemma in_encounter_order_app (per_choice : pyval -> list pyval)
    (choices1 choices2 : list pyval) :
  in_encounter_order per_choice (choices1 ++ choices2)%list
  = (in_encounter_order per_choice choices1
     ++ in_encounter_order per_choice choices2)%list.
Proof. apply flat_map_app. Qed.

(** ** String-shaped content *)

(** A choice whose content is a bare string is one artifact for the
    text-to-image parser, and for the image-edit parser only when the
    string is an http(s) URL. *)
Lemma string_content_artifacts (s : string) :
  generation_choice_artifacts (choice_with (PStr s)) = [PStr s]
  /\ edit_choice_artifacts (choice_with (PStr s))
     = if startswith_http s then [PStr s] else [].
Proof. split; reflexivity. Qed.

(** C10.  There is a reply whose message content is a string that starts
    with neither [http://] nor [https://], which the text-to-image
    component returns as its one result while the image-edit component
    finds no artifact in it and raises. *)
Theorem wan26_parsers_disagree_on_string_content :
  exists (s : string) (response : ConversationResponse),
    String.prefix "http://" s = false /\ String.prefix "https://" s = false
    /\ cr_output response = PObj [("choices", PList [choice_with (PStr s)])]
    /\ fst (ImageGenerationWan26_arun
              (mock_env None no_video (Ok response) no_post)
              (gen_args None) no_kwargs world0)
       = Ok {| go_results := [s]; go_request_id := Some "r1" |}
    /\ ImageEditWan26_parse response = Ok []
    /\ fst (ImageEditWan26_arun
              (mock_env None no_video (Ok response) no_post)
              edit_args no_kwargs world0)
       = Raise (RuntimeError "No image found in response: ").
Proof.
  exists "a watercolor cat",
         (conversation_ok (Some "r1") [choice_with (PStr "a watercolor cat")]).
  repeat split; vm_compute; reflexivity.
Qed.

(** ** The registry *)

Lemma registry_components_repeat :
  ~ NoDup (registry_components mcp_server_metas).
Proof.
  apply (bool_decide_eq_false_1 (NoDup (registry_components mcp_server_metas))).
  vm_compute. reflexivity.
Qed.

(** No reading of the component names makes them unique across the
    registry: a class listed twice contributes its name twice. *)
Lemma no_naming_is_unique (name : Component -> string) :
  ~ names_unique name mcp_server_metas.
Proof.
  unfold names_unique. intros H. apply NoDup_ListNoDup in H.
  apply List.NoDup_map_inv in H. apply NoDup_ListNoDup in H.
  exact (registry_components_repeat H).
Qed.

(** C2, against uniqueness.  The registry is built although two of its
    bundles list the same component: [WanVideoFetch] is in
    [modelstudio_wan_video] and in [modelstudio_wan26_media], so its name
    occurs twice whatever the names are. *)
Lemma mcp_server_metas_shares_WanVideoFetch :
  length mcp_server_metas = 9%nat
  /\ shared_components mcp_server_metas = [WanVideoFetch]
  /\ bundles_of WanVideoFetch mcp_server_metas
     = ["modelstudio_wan_video"; "modelstudio_wan26_media"]
  /\ ~ (exists name, names_unique name mcp_server_metas).
Proof.
  repeat split; try (vm_compute; reflexivity).
  intros [name H]. exact (no_naming_is_unique name H).
Qed.

(** C2 (as the code has it).  Building the registry checks nothing and
    yields the nine bundles in the order they are written; no bundle lists
    a component class twice; [WanVideoFetch] is listed by exactly two
    bundles and every other component class by at most one. *)
Theorem mcp_server_metas_components :
  map fst mcp_server_metas
  = ["modelstudio_wan_image"; "modelstudio_wan_video"; "modelstudio_wan25_media";
     "modelstudio_qwen_image"; "modelstudio_web_search"; "modelstudio_speech_to_text";
     "modelstudio_qwen_text_to_speech"; "modelstudio_wan26_media"; "modelstudio_z_image"]
  /\ Forall (fun kv => NoDup (components (snd kv))) mcp_server_metas
  /\ bundles_listing WanVideoFetch mcp_server_metas = 2%nat
  /\ (forall c, c <> WanVideoFetch -> (bundles_listing c mcp_server_metas <= 1)%nat).
Proof.
  split; [vm_compute; reflexivity|].
  split.
  { apply Forall_forall. intros kv Hin.
    apply (bool_decide_unpack _).
    revert kv Hin. apply Forall_forall.
    apply (bool_decide_unpack _). vm_compute. reflexivity. }
  split; [vm_compute; reflexivity|].
  intros c Hc.
  destruct c; try (exfalso; apply Hc; reflexivity);
    apply Nat.leb_le; vm_compute; reflexivity.
Qed.

(** The theorem at two classes of the wan2.6 bundle. *)
Lemma mcp_server_metas_components_witness :
  (bundles_listing ImageGenerationWan26 mcp_server_metas <= 1)%nat
  /\ (bundles_listing VideoToVideoW26Submit mcp_server_metas <= 1)%nat.
Proof.
  destruct mcp_server_metas_components as (_ & _ & _ & Hother).
  split; apply Hother; discriminate.
Defined.

(** * Further properties of the components *)

(** ** The guard of the keyframe-to-video replies *)

Lemma str_in_terminal_false (s : string) :
  str_in s ["FAILED"; "CANCELED"] = false -> s <> "FAILED" /\ s <> "CANCELED".
Proof.
  unfold str_in. cbn. intros H.
  destruct (String.eqb_spec s "FAILED"); [discriminate|].
  destruct (String.eqb_spec s "CANCELED"); [discriminate|].
  split; assumption.
Qed.

Lemma video_reply_accepted (response : VideoSynthesisResponse) :
  video_reply_rejected response = false ->
  vr_status_code response = HTTPStatus_OK
  /\ exists output,
       vr_output response = Some output
       /\ vo_task_status output <> "FAILED"
       /\ vo_task_status output <> "CANCELED".
Proof.
  unfold video_reply_rejected. intros H.
  apply orb_false_elim in H as [Hcode Hout].
  apply negb_false_iff, Z.eqb_eq in Hcode. split; [exact Hcode|].
  destruct (vr_output response) as [output|]; [|discriminate].
  exists output. split; [reflexivity|]. apply str_in_terminal_false, Hout.
Qed.

Lemma video_reply_rejected_cases (response : VideoSynthesisResponse) :
  vr_status_code response <> HTTPStatus_OK
  \/ vr_output response = None
  \/ (exists output,
        vr_output response = Some output
        /\ (vo_task_status output = "FAILED" \/ vo_task_status output = "CANCELED")) ->
  video_reply_rejected response = true.
Proof.
  unfold video_reply_rejected. intros [Hcode | [Hnone | (output & Hout & Hst)]].
  - apply Z.eqb_neq in Hcode. rewrite Hcode. reflexivity.
  - rewrite Hnone. apply orb_true_r.
  - rewrite Hout, (str_in_terminal _ Hst). apply orb_true_r.
Qed.

(** ** The keyframe-to-video submit *)

(** X1.  Whenever [ImageToVideoByFirstAndLastFrameWan22Submit.arun]
    returns, the SDK answered with status 200 and an output whose task id
    and task status are the ones returned, and the returned status is
    neither [FAILED] nor [CANCELED]. *)
Theorem Wan22Submit_handle_mirrors_reply
    (env : Env) (args : ImageToVideoByFirstAndLastFrameWan22SubmitInput)
    (kwargs : Kwargs) (w w' : World)
    (out : ImageToVideoByFirstAndLastFrameWan22SubmitOutput) :
  ImageToVideoByFirstAndLastFrameWan22Submit_arun env args kwargs w = (Ok out, w') ->
  exists c response output,
    async_call_reply env c = Ok response
    /\ vr_status_code response = HTTPStatus_OK
    /\ vr_output response = Some output
    /\ so_task_id out = vo_task_id output
    /\ so_task_status out = vo_task_status output
    /\ so_task_status out <> "FAILED" /\ so_task_status out <> "CANCELED".
Proof.
  unfold ImageToVideoByFirstAndLastFrameWan22Submit_arun. cbv zeta. intros H.
  apply bind_inv in H as (key & w1 & _ & H).
  apply bind_inv in H as (response & w2 & Hreply & H).
  apply transport_inv in Hreply.
  apply bind_inv in H as (? & w3 & _ & H).
  destruct (video_reply_rejected response) eqn:Hrej; [discriminate|].
  apply video_reply_accepted in Hrej as (Hcode & output & Hout & Hf & Hc).
  apply bind_inv in H as (output' & w4 & Hof & H).
  unfold output_of in Hof. rewrite Hout in Hof. inversion Hof; subst output' w4.
  inversion H; subst; cbn.
  eexists _, response, output. repeat split; eauto.
Qed.

(** The theorem at a reply that reports [PENDING]. *)
Lemma Wan22Submit_handle_mirrors_reply_witness :
  exists output,
    vo_task_id output = "t1" /\ vo_task_status output = "PENDING".
Proof.
  set (env := mock_env (Some "ctx-1") (Ok (video_reply 200 (Some "r1") "PENDING" ""))
                       no_conversation no_post).
  set (run := ImageToVideoByFirstAndLastFrameWan22Submit_arun env submit_args no_kwargs world0).
  set (out := {| so_task_id := "t1"; so_task_status := "PENDING";
                 so_request_id := Some "ctx-1" |}).
  assert (Hrun : run = (Ok out, snd run)) by (vm_compute; reflexivity).
  destruct (Wan22Submit_handle_mirrors_reply env submit_args no_kwargs world0 (snd run)
              out Hrun) as (c & response & output & _ & _ & _ & Hid & Hst & _).
  exists output. split; [symmetry; exact Hid | symmetry; exact Hst].
Defined.

(** X2.  With a configured key and an SDK that answers, the submit raises
    [RuntimeError] (and returns nothing) in each of the three cases it
    guards: the status code is not 200, the reply has no output, or the
    output reports [FAILED] or [CANCELED]. *)
Theorem Wan22Submit_rejects
    (env : Env) (args : ImageToVideoByFirstAndLastFrameWan22SubmitInput)
    (kwargs : Kwargs) (w : World) (key : string) (response : VideoSynthesisResponse) :
  get_api_key env kwargs = Ok key ->
  (forall c, async_call_reply env c = Ok response) ->
  vr_status_code response <> HTTPStatus_OK
  \/ vr_output response = None
  \/ (exists output,
        vr_output response = Some output
        /\ (vo_task_status output = "FAILED" \/ vo_task_status output = "CANCELED")) ->
  fst (ImageToVideoByFirstAndLastFrameWan22Submit_arun env args kwargs w)
  = Raise (RuntimeError "Failed to submit keyframe-to-video task: ").
Proof.
  intros Hkey Hreply Hcase. apply video_reply_rejected_cases in Hcase.
  unfold ImageToVideoByFirstAndLastFrameWan22Submit_arun. cbv zeta.
  erewrite bind_Ok by (apply api_key_configured, Hkey). cbv beta.
  unfold mbind, M_bind, transport. rewrite Hreply.
  destruct (kw_trace_event kwargs); cbn; rewrite Hcase; reflexivity.
Qed.

(** The theorem at a reply with status 429 and no output. *)
Lemma Wan22Submit_rejects_witness :
  fst (ImageToVideoByFirstAndLastFrameWan22Submit_arun
         (mock_env None
            (Ok {| vr_status_code := 429; vr_request_id := Some "r1"; vr_output := None |})
            no_conversation no_post)
         submit_args no_kwargs world0)
  = Raise (RuntimeError "Failed to submit keyframe-to-video task: ").
Proof.
  apply (Wan22Submit_rejects _ _ _ _ "sk-test"
           {| vr_status_code := 429; vr_request_id := Some "r1"; vr_output := None |});
    [reflexivity | intros c; reflexivity | left; discriminate].
Defined.

Lemma Wan22Submit_transport_call
    (env : Env) (args : ImageToVideoByFirstAndLastFrameWan22SubmitInput)
    (kwargs : Kwargs) (w : World) (key : string) :
  get_api_key env kwargs = Ok key ->
  transport_calls (snd (ImageToVideoByFirstAndLastFrameWan22Submit_arun env args kwargs w))
  = (transport_calls w
     ++ [CAsyncCall
           {| ac_model :=
                match kw_model_name kwargs with
                | Some m => m
                | None => default "wan2.2-kf2v-flash"
                            (getenv_IMAGE_TO_VIDEO_KF2V_MODEL_NAME env)
                end;
              ac_api_key := key;
              ac_first_frame_url := si_first_frame_url args;
              ac_last_frame_url := si_last_frame_url args;
              ac_prompt := si_prompt args;
              ac_negative_prompt := si_negative_prompt args;
              ac_parameters := Wan22Submit_parameters args |}])%list.
Proof.
  intros Hkey.
  unfold ImageToVideoByFirstAndLastFrameWan22Submit_arun. cbv zeta.
  erewrite bind_Ok by (apply api_key_configured, Hkey). cbv beta.
  match goal with |- context [async_call_reply env ?c] => set (c0 := c) end.
  destruct (async_call_reply env c0) as [response|e];
    unfold mbind, M_bind, transport; [|reflexivity].
  unfold output_of. run_cases.
Qed.

(** X3.  With a configured key the submit makes exactly one SDK call,
    whatever the SDK answers or raises.  The call carries the key, the two
    frame URLs and the prompts as given, and the model named in [kwargs],
    else the one in the environment variable
    [IMAGE_TO_VIDEO_KF2V_MODEL_NAME], else ["wan2.2-kf2v-flash"]. *)
Theorem Wan22Submit_call_arguments
    (env : Env) (args : ImageToVideoByFirstAndLastFrameWan22SubmitInput)
    (kwargs : Kwargs) (w : World) (key : string) :
  get_api_key env kwargs = Ok key ->
  exists c,
    transport_calls (snd (ImageToVideoByFirstAndLastFrameWan22Submit_arun env args kwargs w))
    = (transport_calls w ++ [CAsyncCall c])%list
    /\ ac_api_key c = key
    /\ ac_first_frame_url c = si_first_frame_url args
    /\ ac_last_frame_url c = si_last_frame_url args
    /\ ac_prompt c = si_prompt args
    /\ ac_negative_prompt c = si_negative_prompt args
    /\ ac_parameters c = Wan22Submit_parameters args
    /\ ac_model c
       = match kw_model_name kwargs, getenv_IMAGE_TO_VIDEO_KF2V_MODEL_NAME env with
         | Some m, _ => m
         | None, Some m => m
         | None, None => "wan2.2-kf2v-flash"
         end.
Proof.
  intros Hkey. eexists. split; [apply Wan22Submit_transport_call, Hkey|].
  cbn. repeat split.
Qed.

(** The theorem at a run whose [kwargs] name no model and whose
    environment variable is unset. *)
Lemma Wan22Submit_call_arguments_witness :
  exists c,
    transport_calls
      (snd (ImageToVideoByFirstAndLastFrameWan22Submit_arun
              (mock_env None no_video no_conversation no_post)
              submit_args no_kwargs world0))
    = [CAsyncCall c]
    /\ ac_model c = "wan2.2-kf2v-flash" /\ ac_first_frame_url c = "u1".
Proof.
  destruct (Wan22Submit_call_arguments
              (mock_env None no_video no_conversation no_post)
              submit_args no_kwargs world0 "sk-test" eq_refl)
    as (c & Hcalls & _ & Hfirst & _ & _ & _ & _ & Hmodel).
  exists c. split; [exact Hcalls|]. split; [exact Hmodel | exact Hfirst].
Defined.

Ltac unfold_parameters :=
  unfold set_if_not_None, set_if_truthy, set_if; cbv zeta.

(** Reads a key through a chain of inserts into the empty map. *)
Ltac lookup_inserts :=
  repeat (rewrite lookup_insert_eq || rewrite lookup_insert_ne by discriminate);
  rewrite ?lookup_empty; try reflexivity.

(** X4.  The tuning parameters of the submit call: [resolution] and
    [template] are sent when they are non-empty strings, [prompt_extend],
    [watermark] and [seed] whenever they are not [None] (so [False] and
    [0] are sent too), each with the value given, and no other parameter
    is sent. *)
Theorem Wan22Submit_parameters_sent
    (args : ImageToVideoByFirstAndLastFrameWan22SubmitInput) :
  let parameters := Wan22Submit_parameters args in
  let non_empty (o : option string) :=
    match o with
    | Some s => if String.eqb s "" then None else Some (PStr s)
    | None => None
    end in
  parameters !! "resolution" = non_empty (si_resolution args)
  /\ parameters !! "template" = non_empty (si_template args)
  /\ parameters !! "prompt_extend" = PBool <$> si_prompt_extend args
  /\ parameters !! "watermark" = PBool <$> si_watermark args
  /\ parameters !! "seed" = PInt <$> si_seed args
  /\ dom parameters
     ⊆ ({["resolution"; "template"; "prompt_extend"; "watermark"; "seed"]} : gset string).
Proof.
  cbv zeta. unfold Wan22Submit_parameters. unfold_parameters.
  destruct (si_resolution args) as [r|], (si_template args) as [t|],
    (si_prompt_extend args), (si_watermark args), (si_seed args);
    try destruct (String.eqb r ""); try destruct (String.eqb t ""); cbn;
    (repeat split; [lookup_inserts ..|]);
    rewrite ?dom_insert_L, ?dom_empty_L;
    apply (bool_decide_unpack _); vm_compute; reflexivity.
Qed.

(** ** The keyframe-to-video fetch *)

(** X5.  Whenever [ImageToVideoByFirstAndLastFrameWan22Fetch.arun]
    returns, the SDK answered with status 200 and an output whose video
    URL, task id and task status are the ones returned, and the returned
    status is neither [FAILED] nor [CANCELED]. *)
Theorem Wan22Fetch_output_mirrors_reply
    (env : Env) (args : ImageToVideoByFirstAndLastFrameWan22FetchInput)
    (kwargs : Kwargs) (w w' : World)
    (out : ImageToVideoByFirstAndLastFrameWan22FetchOutput) :
  ImageToVideoByFirstAndLastFrameWan22Fetch_arun env args kwargs w = (Ok out, w') ->
  exists key response output,
    fetch_reply env {| fc_api_key := key; fc_task := fi_task_id args |} = Ok response
    /\ vr_status_code response = HTTPStatus_OK
    /\ vr_output response = Some output
    /\ fo_video_url out = vo_video_url output
    /\ fo_task_id out = vo_task_id output
    /\ fo_task_status out = vo_task_status output
    /\ fo_task_status out <> "FAILED" /\ fo_task_status out <> "CANCELED".
Proof.
  unfold ImageToVideoByFirstAndLastFrameWan22Fetch_arun. cbv zeta. intros H.
  apply bind_inv in H as (key & w1 & _ & H).
  apply bind_inv in H as (response & w2 & Hreply & H).
  apply transport_inv in Hreply.
  apply bind_inv in H as (? & w3 & _ & H).
  destruct (video_reply_rejected response) eqn:Hrej; [discriminate|].
  apply video_reply_accepted in Hrej as (Hcode & output & Hout & Hf & Hc).
  apply bind_inv in H as (output' & w4 & Hof & H).
  unfold output_of in Hof. rewrite Hout in Hof. inversion Hof; subst output' w4.
  inversion H; subst; cbn.
  exists key, response, output. repeat split; eauto.
Qed.

(** The theorem at the reply of a finished task. *)
Lemma Wan22Fetch_output_mirrors_reply_witness :
  exists output,
    vo_video_url output = "https://x/video.mp4" /\ vo_task_status output = "SUCCEEDED".
Proof.
  set (env := mock_env None
                (Ok (video_reply 200 None "SUCCEEDED" "https://x/video.mp4"))
                no_conversation no_post).
  set (run := ImageToVideoByFirstAndLastFrameWan22Fetch_arun env fetch_args no_kwargs world0).
  set (out := {| fo_video_url := "https://x/video.mp4"; fo_task_id := "t1";
                 fo_task_status := "SUCCEEDED"; fo_request_id := Some uuid_of_zero |}).
  assert (Hrun : run = (Ok out, snd run)) by (vm_compute; reflexivity).
  destruct (Wan22Fetch_output_mirrors_reply env fetch_args no_kwargs world0 (snd run)
              out Hrun) as (key & response & output & _ & _ & _ & Hurl & _ & Hst & _).
  exists output. split; [symmetry; exact Hurl | symmetry; exact Hst].
Defined.

(** X6.  With a configured key and an SDK that answers, the fetch raises
    [RuntimeError] (and returns nothing) when the status code is not 200,
    when the reply has no output, and when the output reports [FAILED] or
    [CANCELED]; it has still made its one SDK call. *)
Theorem Wan22Fetch_rejects
    (env : Env) (args : ImageToVideoByFirstAndLastFrameWan22FetchInput)
    (kwargs : Kwargs) (w : World) (key : string) (response : VideoSynthesisResponse) :
  get_api_key env kwargs = Ok key ->
  fetch_reply env {| fc_api_key := key; fc_task := fi_task_id args |} = Ok response ->
  vr_status_code response <> HTTPStatus_OK
  \/ vr_output response = None
  \/ (exists output,
        vr_output response = Some output
        /\ (vo_task_status output = "FAILED" \/ vo_task_status output = "CANCELED")) ->
  let run := ImageToVideoByFirstAndLastFrameWan22Fetch_arun env args kwargs w in
  fst run = Raise (RuntimeError "Failed to fetch keyframe-to-video result: ")
  /\ transport_calls (snd run)
     = (transport_calls w
        ++ [CFetch {| fc_api_key := key; fc_task := fi_task_id args |}])%list.
Proof.
  intros Hkey Hreply Hcase. apply video_reply_rejected_cases in Hcase.
  unfold ImageToVideoByFirstAndLastFrameWan22Fetch_arun. cbv zeta.
  erewrite bind_Ok by (apply api_key_configured, Hkey). cbv beta.
  unfold mbind, M_bind, transport. rewrite Hreply.
  destruct (kw_trace_event kwargs); cbn; rewrite Hcase; split; reflexivity.
Qed.

(** The theorem at the reply of a failed task. *)
Lemma Wan22Fetch_rejects_witness :
  fst (ImageToVideoByFirstAndLastFrameWan22Fetch_arun
         (mock_env None (Ok (video_reply 200 (Some "r1") "FAILED" "")) no_conversation no_post)
         fetch_args no_kwargs world0)
  = Raise (RuntimeError "Failed to fetch keyframe-to-video result: ").
Proof.
  apply (Wan22Fetch_rejects
           (mock_env None (Ok (video_reply 200 (Some "r1") "FAILED" "")) no_conversation no_post)
           fetch_args no_kwargs world0 "sk-test" (video_reply 200 (Some "r1") "FAILED" ""));
    [reflexivity | reflexivity |].
  right. right. eexists. split; [reflexivity | left; reflexivity].
Defined.

(** ** Exceptions of the transport *)

(** X7.  The two keyframe-to-video operations and the reference-video
    submit have no handler around their transport call: an exception the
    SDK or the HTTP client raises reaches the caller as it is, and
    nothing is logged to the trace. *)
Theorem transport_exception_propagates
    (env : Env) (kwargs : Kwargs) (w : World) (key : string) (e : exn) :
  get_api_key env kwargs = Ok key ->
  (forall args,
     (forall c, async_call_reply env c = Raise e) ->
     let run := ImageToVideoByFirstAndLastFrameWan22Submit_arun env args kwargs w in
     fst run = Raise e /\ trace_log (snd run) = trace_log w)
  /\ (forall args,
     (forall c, fetch_reply env c = Raise e) ->
     let run := ImageToVideoByFirstAndLastFrameWan22Fetch_arun env args kwargs w in
     fst run = Raise e /\ trace_log (snd run) = trace_log w)
  /\ (forall args,
     (forall c, post_reply env c = Raise e) ->
     let run := VideoToVideoW26Submit_arun env args kwargs w in
     fst run = Raise e /\ trace_log (snd run) = trace_log w).
Proof.
  intros Hkey. repeat apply conj; intros args Hreply; cbv zeta;
    [ unfold ImageToVideoByFirstAndLastFrameWan22Submit_arun
    | unfold ImageToVideoByFirstAndLastFrameWan22Fetch_arun
    | unfold VideoToVideoW26Submit_arun ];
    cbv zeta;
    (erewrite bind_Ok by (apply api_key_configured, Hkey)); cbv beta;
    unfold mbind, M_bind, transport; rewrite Hreply; split; reflexivity.
Qed.

(** The theorem at an HTTP client that cannot connect. *)
Lemma transport_exception_propagates_witness :
  fst (VideoToVideoW26Submit_arun
         (mock_env None no_video no_conversation (Raise (TransportError "connection refused")))
         v2v_args no_kwargs world0)
  = Raise (TransportError "connection refused").
Proof.
  destruct (transport_exception_propagates
              (mock_env None no_video no_conversation
                        (Raise (TransportError "connection refused")))
              no_kwargs world0 "sk-test" (TransportError "connection refused") eq_refl)
    as (_ & _ & Hpost).
  apply (Hpost v2v_args). intros c. reflexivity.
Defined.

(** X8.  The two wan2.6 image components catch whatever the SDK call
    raises and raise [RuntimeError] in its place, the message ending in
    [str(e)]; the call was made once and nothing is logged to the trace. *)
Theorem image_sdk_exception_wrapped
    (env : Env) (kwargs : Kwargs) (w : World) (key : string) (e : exn) :
  get_api_key env kwargs = Ok key ->
  (forall args,
     conversation_reply env (ImageGenerationWan26_call key args) = Raise e ->
     ImageGenerationWan26_arun env args kwargs w
     = (Raise (RuntimeError
                 ("Failed to call Wan 2.6 image generation API: " +:+ str_exn e)),
        {| transport_calls :=
             (transport_calls w
              ++ [CConversation (ImageGenerationWan26_call key args)])%list;
           trace_log := trace_log w |}))
  /\ (forall args,
     conversation_reply env (ImageEditWan26_call key args) = Raise e ->
     ImageEditWan26_arun env args kwargs w
     = (Raise (RuntimeError
                 ("Failed to call Wanx 2.6 image generation API: " +:+ str_exn e)),
        {| transport_calls :=
             (transport_calls w ++ [CConversation (ImageEditWan26_call key args)])%list;
           trace_log := trace_log w |})).
Proof.
  intros Hkey. split; intros args Hreply;
    [ unfold ImageGenerationWan26_arun | unfold ImageEditWan26_arun ];
    cbv zeta;
    (erewrite bind_Ok by (apply api_key_configured, Hkey)); cbv beta;
    unfold mbind, M_bind, try_except, transport, raise; rewrite Hreply; reflexivity.
Qed.

(** The theorem at an SDK call that times out. *)
Lemma image_sdk_exception_wrapped_witness :
  fst (ImageGenerationWan26_arun
         (mock_env None no_video (Raise (TransportError "timed out")) no_post)
         (gen_args None) no_kwargs world0)
  = Raise (RuntimeError "Failed to call Wan 2.6 image generation API: timed out").
Proof.
  destruct (image_sdk_exception_wrapped
              (mock_env None no_video (Raise (TransportError "timed out")) no_post)
              no_kwargs world0 "sk-test" (TransportError "timed out") eq_refl)
    as (Hgen & _).
  rewrite (Hgen (gen_args None) eq_refl). reflexivity.
Defined.

(** ** What is written to the trace *)

(** Unfolds the monad's operations in a hypothesis about a run and splits
    on every test that is left. *)
Ltac run_inv H :=
  unfold api_key_or_ValueError, output_of in H;
  unfold mbind, mret, M_bind, M_ret, try_except, transport, on_log, raise, lift in H;
  cbn in H;
  repeat (case_match; simplify_eq; cbn in *).

(** X9.  When a [trace_event] is passed and the SDK answers, each
    keyframe-to-video operation logs exactly one record, before it looks
    at the reply, so also for a reply it then rejects.  The submit's
    record carries the request id of the tracing context, the fetch's
    record the request id of the provider's reply. *)
Theorem keyframe_trace_record
    (env : Env) (kwargs : Kwargs) (w : World) (key : string)
    (response : VideoSynthesisResponse) :
  get_api_key env kwargs = Ok key ->
  kw_trace_event kwargs = true ->
  (forall args,
     (forall c, async_call_reply env c = Ok response) ->
     trace_log (snd (ImageToVideoByFirstAndLastFrameWan22Submit_arun env args kwargs w))
     = (trace_log w
        ++ [{| tr_step_suffix := "results"; tr_request_id := get_request_id env;
               tr_payload_key := "submit_task" |}])%list)
  /\ (forall args,
     (forall c, fetch_reply env c = Ok response) ->
     trace_log (snd (ImageToVideoByFirstAndLastFrameWan22Fetch_arun env args kwargs w))
     = (trace_log w
        ++ [{| tr_step_suffix := "results"; tr_request_id := vr_request_id response;
               tr_payload_key := "fetch_result" |}])%list).
Proof.
  intros Hkey Htrace. split; intros args Hreply;
    [ unfold ImageToVideoByFirstAndLastFrameWan22Submit_arun
    | unfold ImageToVideoByFirstAndLastFrameWan22Fetch_arun ];
    cbv zeta;
    (erewrite bind_Ok by (apply api_key_configured, Hkey)); cbv beta;
    unfold mbind, M_bind, transport; rewrite Hreply, Htrace; cbn;
    unfold output_of; destruct (video_reply_rejected response); [reflexivity| |reflexivity|];
    destruct (vr_output response); reflexivity.
Qed.

(** The theorem at a rejected reply: the record is there all the same. *)
Lemma keyframe_trace_record_witness :
  trace_log
    (snd (ImageToVideoByFirstAndLastFrameWan22Fetch_arun
            (mock_env (Some "ctx-1") (Ok (video_reply 200 (Some "r1") "FAILED" ""))
                      no_conversation no_post)
            fetch_args {| kw_trace_event := true; kw_model_name := None |} world0))
  = [{| tr_step_suffix := "results"; tr_request_id := Some "r1";
        tr_payload_key := "fetch_result" |}].
Proof.
  destruct (keyframe_trace_record
              (mock_env (Some "ctx-1") (Ok (video_reply 200 (Some "r1") "FAILED" ""))
                        no_conversation no_post)
              {| kw_trace_event := true; kw_model_name := None |} world0 "sk-test"
              (video_reply 200 (Some "r1") "FAILED" "") eq_refl eq_refl) as (_ & Hfetch).
  apply (Hfetch fetch_args). intros c. reflexivity.
Defined.

(** X10.  Without a [trace_event] none of the four components that accept
    one writes to the trace, however the run ends. *)
Theorem no_trace_event_no_record (env : Env) (kwargs : Kwargs) (w : World) :
  kw_trace_event kwargs = false ->
  (forall args,
     trace_log (snd (ImageToVideoByFirstAndLastFrameWan22Submit_arun env args kwargs w))
     = trace_log w)
  /\ (forall args,
     trace_log (snd (ImageToVideoByFirstAndLastFrameWan22Fetch_arun env args kwargs w))
     = trace_log w)
  /\ (forall args,
     trace_log (snd (ImageGenerationWan26_arun env args kwargs w)) = trace_log w)
  /\ (forall args,
     trace_log (snd (ImageEditWan26_arun env args kwargs w)) = trace_log w).
Proof.
  intros Htrace. repeat apply conj; intros args;
    [ unfold ImageToVideoByFirstAndLastFrameWan22Submit_arun
    | unfold ImageToVideoByFirstAndLastFrameWan22Fetch_arun
    | unfold ImageGenerationWan26_arun
    | unfold ImageEditWan26_arun ];
    cbv zeta; rewrite Htrace; unfold api_key_or_ValueError, output_of; run_cases.
Qed.

(** The theorem at a successful text-to-image run. *)
Lemma no_trace_event_no_record_witness :
  trace_log
    (snd (ImageGenerationWan26_arun
            (mock_env None no_video
               (Ok (conversation_ok (Some "r1") three_images_in_two_choices)) no_post)
            (gen_args None) no_kwargs world0))
  = [].
Proof.
  destruct (no_trace_event_no_record
              (mock_env None no_video
                 (Ok (conversation_ok (Some "r1") three_images_in_two_choices)) no_post)
              no_kwargs world0 eq_refl) as (_ & _ & Hgen & _).
  apply (Hgen (gen_args None)).
Defined.

(** X11.  When a wan2.6 image component returns and a [trace_event] was
    passed, it has logged exactly one record, and that record carries the
    request id of the returned output. *)
Theorem image_trace_record_matches_output (env : Env) (kwargs : Kwargs) (w w' : World) :
  kw_trace_event kwargs = true ->
  (forall args out,
     ImageGenerationWan26_arun env args kwargs w = (Ok out, w') ->
     trace_log w'
     = (trace_log w
        ++ [{| tr_step_suffix := "results"; tr_request_id := go_request_id out;
               tr_payload_key := "wanx26_image_generation_result" |}])%list)
  /\ (forall args out,
     ImageEditWan26_arun env args kwargs w = (Ok out, w') ->
     trace_log w'
     = (trace_log w
        ++ [{| tr_step_suffix := "results"; tr_request_id := eo_request_id out;
               tr_payload_key := "wanx26_image_generation_result" |}])%list).
Proof.
  intros Htrace. split; intros args out H;
    [ unfold ImageGenerationWan26_arun in H | unfold ImageEditWan26_arun in H ];
    cbv zeta in H; rewrite Htrace in H; run_inv H; reflexivity.
Qed.

(** The theorem at a successful text-to-image run with a [trace_event]. *)
Lemma image_trace_record_matches_output_witness :
  exists out w',
    ImageGenerationWan26_arun
      (mock_env None no_video
         (Ok (conversation_ok (Some "r1") three_images_in_two_choices)) no_post)
      (gen_args None) {| kw_trace_event := true; kw_model_name := None |} world0
    = (Ok out, w')
    /\ trace_log w'
       = [{| tr_step_suffix := "results"; tr_request_id := Some "r1";
             tr_payload_key := "wanx26_image_generation_result" |}].
Proof.
  set (env := mock_env None no_video
                (Ok (conversation_ok (Some "r1") three_images_in_two_choices)) no_post).
  set (kwargs := {| kw_trace_event := true; kw_model_name := None |}).
  set (run := ImageGenerationWan26_arun env (gen_args None) kwargs world0).
  set (out := {| go_results := ["https://x/1.png"; "https://x/2.png"; "https://x/3.png"];
                 go_request_id := Some "r1" |}).
  assert (Hrun : run = (Ok out, snd run)) by (vm_compute; reflexivity).
  destruct (image_trace_record_matches_output env kwargs world0 (snd run) eq_refl)
    as (Hgen & _).
  exists out, (snd run). split; [exact Hrun|].
  apply (Hgen (gen_args None) out Hrun).
Defined.

(** ** The reference-video submit *)

Lemma VideoToVideoW26Submit_transport_call
    (env : Env) (args : VideoToVideoGenerationWan26Input) (kwargs : Kwargs) (w : World)
    (key : string) :
  get_api_key env kwargs = Ok key ->
  let run := VideoToVideoW26Submit_arun env args kwargs w in
  transport_calls (snd run)
  = (transport_calls w
     ++ [CPost {| pc_url := DASHSCOPE_API_BASE
                            +:+ "/services/aigc/video-generation/video-synthesis";
                  pc_headers := [("Authorization", "Bearer " +:+ key);
                                 ("Content-Type", "application/json");
                                 ("X-DashScope-Async", "enable")];
                  pc_json := VideoToVideoW26Submit_payload args |}])%list
  /\ trace_log (snd run) = trace_log w.
Proof.
  intros Hkey. cbv zeta.
  unfold VideoToVideoW26Submit_arun. cbv zeta.
  erewrite bind_Ok by (apply api_key_configured, Hkey). cbv beta.
  match goal with |- context [post_reply env ?c] => set (c0 := c) end.
  destruct (post_reply env c0) as [resp|e];
    unfold mbind, M_bind, transport; [|split; reflexivity].
  split; run_cases.
Qed.

(** X12.  With a configured key the reference-video submit sends exactly
    one POST, whatever the endpoint answers, to the video-synthesis URL of
    the DashScope API, with a bearer [Authorization] header built from the
    key, a JSON content type and the header that asks for asynchronous
    processing; it never writes to the trace. *)
Theorem VideoToVideoW26Submit_request
    (env : Env) (args : VideoToVideoGenerationWan26Input) (kwargs : Kwargs) (w : World)
    (key : string) :
  get_api_key env kwargs = Ok key ->
  let run := VideoToVideoW26Submit_arun env args kwargs w in
  exists c,
    transport_calls (snd run) = (transport_calls w ++ [CPost c])%list
    /\ trace_log (snd run) = trace_log w
    /\ pc_url c
       = "https://dashscope.aliyuncs.com/api/v1/services/aigc/video-generation/video-synthesis"
    /\ pc_headers c = [("Authorization", "Bearer " +:+ key);
                       ("Content-Type", "application/json");
                       ("X-DashScope-Async", "enable")]
    /\ pc_json c = VideoToVideoW26Submit_payload args.
Proof.
  intros Hkey run.
  destruct (VideoToVideoW26Submit_transport_call env args kwargs w key Hkey)
    as [Hcalls Htrace].
  eexists. split; [exact Hcalls|]. split; [exact Htrace|]. repeat split.
Qed.

(** The theorem at an endpoint that answers 200. *)
Lemma VideoToVideoW26Submit_request_witness :
  exists c,
    transport_calls
      (snd (VideoToVideoW26Submit_arun
              (mock_env None no_video no_conversation (Ok (creation_reply "PENDING")))
              v2v_args no_kwargs world0))
    = [CPost c]
    /\ pc_headers c = [("Authorization", "Bearer sk-test");
                       ("Content-Type", "application/json");
                       ("X-DashScope-Async", "enable")].
Proof.
  destruct (VideoToVideoW26Submit_request
              (mock_env None no_video no_conversation (Ok (creation_reply "PENDING")))
              v2v_args no_kwargs world0 "sk-test" eq_refl)
    as (c & Hcalls & _ & _ & Hheaders & _).
  exists c. split; [exact Hcalls | exact Hheaders].
Defined.

(** X13.  The JSON body of the creation request: the model is
    ["wan2.6-r2v"]; [input] holds the prompt and the reference video URLs
    in the order given, and a [negative_prompt] entry exactly when one was
    given; [parameters] always holds [size], [duration], [shot_type] and
    [watermark] (as [null] when the field is [None]), and a [seed] entry
    exactly when a seed was given. *)
Theorem VideoToVideoW26Submit_payload_entries (args : VideoToVideoGenerationWan26Input) :
  exists input parameters,
    VideoToVideoW26Submit_payload args
    = PDict [("model", PStr "wan2.6-r2v");
             ("input", PDict input); ("parameters", PDict parameters)]
    /\ assoc "prompt" input = Some (PStr (vi_prompt args))
    /\ assoc "reference_video_urls" input
       = Some (PList (map PStr (vi_reference_video_urls args)))
    /\ assoc "negative_prompt" input = PStr <$> vi_negative_prompt args
    /\ assoc "size" parameters = Some (opt_val PStr (vi_size args))
    /\ assoc "duration" parameters = Some (opt_val PInt (vi_duration args))
    /\ assoc "shot_type" parameters = Some (opt_val PStr (vi_shot_type args))
    /\ assoc "watermark" parameters = Some (opt_val PBool (vi_watermark args))
    /\ assoc "seed" parameters = PInt <$> vi_seed args.
Proof.
  unfold VideoToVideoW26Submit_payload. cbv zeta.
  eexists _, _. split; [reflexivity|].
  destruct (vi_negative_prompt args), (vi_seed args); repeat split.
Qed.

(** X14.  A reply whose HTTP status is not 200 makes the submit raise
    [RuntimeError] with the reply's text in the message; the JSON body is
    not looked at. *)
Theorem VideoToVideoW26Submit_http_error
    (env : Env) (args : VideoToVideoGenerationWan26Input) (kwargs : Kwargs) (w : World)
    (key : string) (resp : ClientResponse) :
  get_api_key env kwargs = Ok key ->
  (forall c, post_reply env c = Ok resp) ->
  resp_status resp <> HTTPStatus_OK ->
  fst (VideoToVideoW26Submit_arun env args kwargs w)
  = Raise (RuntimeError ("Failed to create video task: " +:+ resp_text resp)).
Proof.
  intros Hkey Hreply Hstatus. apply Z.eqb_neq in Hstatus.
  unfold VideoToVideoW26Submit_arun. cbv zeta.
  erewrite bind_Ok by (apply api_key_configured, Hkey). cbv beta.
  unfold mbind, M_bind, transport. rewrite Hreply, Hstatus. reflexivity.
Qed.

(** The theorem at a 401 reply whose body is not JSON. *)
Lemma VideoToVideoW26Submit_http_error_witness :
  fst (VideoToVideoW26Submit_arun
         (mock_env None no_video no_conversation
            (Ok {| resp_status := 401; resp_text := "Invalid API-key provided.";
                   resp_json := Raise (JSONDecodeError "Expecting value") |}))
         v2v_args no_kwargs world0)
  = Raise (RuntimeError "Failed to create video task: Invalid API-key provided.").
Proof.
  set (resp := {| resp_status := 401; resp_text := "Invalid API-key provided.";
                  resp_json := Raise (JSONDecodeError "Expecting value") |}).
  rewrite (VideoToVideoW26Submit_http_error
             (mock_env None no_video no_conversation (Ok resp))
             v2v_args no_kwargs world0 "sk-test" resp eq_refl (fun _ => eq_refl));
    [reflexivity | discriminate].
Defined.

(** X15.  Whenever the reference-video submit returns, the endpoint
    answered 200 with a JSON body, and the returned task id is the string
    found under [output] and then [task_id] in that body. *)
Theorem VideoToVideoW26Submit_task_id_from_body
    (env : Env) (args : VideoToVideoGenerationWan26Input) (kwargs : Kwargs)
    (w w' : World) (out : VideoToVideoGenerationWan26Output) :
  VideoToVideoW26Submit_arun env args kwargs w = (Ok out, w') ->
  exists c resp body output,
    post_reply env c = Ok resp
    /\ resp_status resp = HTTPStatus_OK
    /\ resp_json resp = Ok body
    /\ getitem body "output" = Ok output
    /\ getitem output "task_id" = Ok (PStr (vto_task_id out)).
Proof.
  unfold VideoToVideoW26Submit_arun. cbv zeta. intros H.
  apply bind_inv in H as (key & w1 & _ & H).
  apply bind_inv in H as (resp & w2 & Hreply & H).
  apply transport_inv in Hreply.
  apply bind_inv in H as (task_id & w3 & Hid & H).
  apply bind_inv in H as (task_id' & w4 & Hval & H).
  inversion H; subst; cbn.
  destruct (Z.eqb_spec (resp_status resp) HTTPStatus_OK) as [Hstatus|]; [|discriminate].
  cbn in Hid.
  apply bind_inv in Hid as (body & w5 & Hbody & Hid).
  apply bind_inv in Hid as (output & w6 & Houtput & Hid).
  unfold lift in *.
  destruct task_id; try discriminate. cbn in Hval.
  simplify_eq.
  eexists _, resp, body, output. repeat split; eauto.
Qed.

(** The theorem at a creation reply. *)
Lemma VideoToVideoW26Submit_task_id_from_body_witness :
  exists body output,
    getitem body "output" = Ok output /\ getitem output "task_id" = Ok (PStr "t1").
Proof.
  set (env := mock_env None no_video no_conversation (Ok (creation_reply "PENDING"))).
  set (run := VideoToVideoW26Submit_arun env v2v_args no_kwargs world0).
  set (out := {| vto_task_id := "t1"; vto_request_id := Some uuid_of_zero |}).
  assert (Hrun : run = (Ok out, snd run)) by (vm_compute; reflexivity).
  destruct (VideoToVideoW26Submit_task_id_from_body env v2v_args no_kwargs world0 (snd run)
              out Hrun) as (c & resp & body & output & _ & _ & _ & Hout & Hid).
  exists body, output. split; [exact Hout | exact Hid].
Defined.

Lemma getitem_error (v : pyval) (key : string) (e : exn) :
  getitem v key = Raise e -> e = KeyError key \/ exists msg, e = TypeError msg.
Proof.
  unfold getitem. destruct v; try solve [intros H; inversion H; right; eauto].
  - destruct (assoc key entries); intros H; inversion H. left. reflexivity.
  - destruct (assoc key attrs); intros H; inversion H. left. reflexivity.
Qed.

(** X16.  For a 200 reply with a decodable JSON body the reference-video
    submit never raises [RuntimeError]: when the body does not have the
    expected shape, what reaches the caller is the [KeyError] or
    [TypeError] of a subscript, or pydantic's validation error for a task
    id that is not a string. *)
Theorem VideoToVideoW26Submit_body_errors
    (env : Env) (args : VideoToVideoGenerationWan26Input) (kwargs : Kwargs) (w : World)
    (key : string) (resp : ClientResponse) (body : pyval) (e : exn) :
  get_api_key env kwargs = Ok key ->
  (forall c, post_reply env c = Ok resp) ->
  resp_status resp = HTTPStatus_OK ->
  resp_json resp = Ok body ->
  fst (VideoToVideoW26Submit_arun env args kwargs w) = Raise e ->
  e = KeyError "output" \/ e = KeyError "task_id"
  \/ (exists msg, e = TypeError msg) \/ e = ValidationError "task_id".
Proof.
  intros Hkey Hreply Hstatus Hbody.
  unfold VideoToVideoW26Submit_arun. cbv zeta.
  erewrite bind_Ok by (apply api_key_configured, Hkey). cbv beta.
  unfold mbind, M_bind, transport, lift. rewrite Hreply, Hstatus, Hbody. cbn.
  destruct (getitem body "output") as [output|e1] eqn:Hout; cbn.
  - destruct (getitem output "task_id") as [task_id|e2] eqn:Hid; cbn.
    + destruct task_id; cbn; intros H; inversion H; auto.
    + intros H; inversion H; subst.
      destruct (getitem_error _ _ _ Hid) as [-> | Hty]; auto.
  - intros H; inversion H; subst.
    destruct (getitem_error _ _ _ Hout) as [-> | Hty]; auto.
Qed.

(** The theorem at a 200 reply whose [output] is [null]. *)
Lemma VideoToVideoW26Submit_body_errors_witness :
  exists msg,
    fst (VideoToVideoW26Submit_arun
           (mock_env None no_video no_conversation
              (Ok {| resp_status := 200; resp_text := "";
                     resp_json := Ok (PDict [("output", PNone)]) |}))
           v2v_args no_kwargs world0)
    = Raise (TypeError msg).
Proof.
  set (resp := {| resp_status := 200; resp_text := "";
                  resp_json := Ok (PDict [("output", PNone)]) |}).
  destruct (VideoToVideoW26Submit_body_errors
              (mock_env None no_video no_conversation (Ok resp))
              v2v_args no_kwargs world0 "sk-test" resp (PDict [("output", PNone)])
              (TypeError "object is not subscriptable")
              eq_refl (fun _ => eq_refl) eq_refl eq_refl eq_refl)
    as [H | [H | [[msg H] | H]]]; try discriminate.
  exists msg. rewrite <- H. reflexivity.
Defined.

(** ** The wan2.6 image components: failures *)

Lemma validate_str_error (field : string) (v : pyval) (e : exn) :
  validate_str field v = Raise e -> e = ValidationError field.
Proof. destruct v; cbn; intros H; inversion H; reflexivity. Qed.

Lemma validate_str_list_error (field : string) (l : list pyval) (e : exn) :
  validate_str_list field l = Raise e -> e = ValidationError field.
Proof.
  induction l as [|v l IH]; cbn; [discriminate|].
  destruct v; cbn; try (intros H; inversion H; reflexivity).
  destruct (validate_str_list field l); [discriminate|].
  intros H. inversion H; subst. apply IH. reflexivity.
Qed.

(** X17.  With a configured key, whatever the SDK answers or raises and
    whatever the shape of the reply, a wan2.6 image component that fails
    raises [RuntimeError], or pydantic's validation error when an artifact
    it collected is not a string: no [TypeError], [KeyError] or
    [AttributeError] of the reply walk reaches the caller. *)
Theorem image_components_error_classes
    (env : Env) (kwargs : Kwargs) (w w' : World) (key : string) (e : exn) :
  get_api_key env kwargs = Ok key ->
  (forall args,
     ImageGenerationWan26_arun env args kwargs w = (Raise e, w') ->
     (exists msg, e = RuntimeError msg) \/ e = ValidationError "results")
  /\ (forall args,
     ImageEditWan26_arun env args kwargs w = (Raise e, w') ->
     (exists msg, e = RuntimeError msg) \/ e = ValidationError "results").
Proof.
  intros Hkey. split; intros args H;
    [ unfold ImageGenerationWan26_arun in H | unfold ImageEditWan26_arun in H ];
    cbv zeta in H;
    (erewrite bind_Ok in H by (apply api_key_configured, Hkey)); cbv beta in H;
    run_inv H;
    first [ left; eexists; reflexivity
          | right; eapply validate_str_list_error; eassumption
          | right; eapply validate_str_error; eassumption ].
Qed.

(** The theorem at a reply whose [choices] is [None]: iterating it raises
    [TypeError], which the text-to-image component turns into
    [RuntimeError]. *)
Lemma image_components_error_classes_witness :
  exists msg,
    fst (ImageGenerationWan26_arun
           (mock_env None no_video
              (Ok {| cr_status_code := 200; cr_request_id := None;
                     cr_output := PObj [("choices", PNone)] |}) no_post)
           (gen_args None) no_kwargs world0)
    = Raise (RuntimeError msg).
Proof.
  set (env := mock_env None no_video
                (Ok {| cr_status_code := 200; cr_request_id := None;
                       cr_output := PObj [("choices", PNone)] |}) no_post).
  set (run := ImageGenerationWan26_arun env (gen_args None) no_kwargs world0).
  set (e := RuntimeError
              "Failed to parse Wan 2.6 API response: 'NoneType' object is not iterable").
  assert (Hrun : run = (Raise e, snd run)) by (vm_compute; reflexivity).
  destruct (image_components_error_classes env no_kwargs world0 (snd run) "sk-test" e
              eq_refl) as (Hgen & _).
  destruct (Hgen (gen_args None) Hrun) as [[msg Hmsg] | Hval]; [|discriminate].
  exists msg. fold run. rewrite Hrun. cbn. f_equal. exact Hmsg.
Defined.

(** X18.  A reply whose status code is not 200, or whose output is empty
    or missing, makes a wan2.6 image component raise [RuntimeError]
    without walking the reply. *)
Theorem image_reply_rejected
    (env : Env) (kwargs : Kwargs) (w : World) (key : string)
    (response : ConversationResponse) :
  get_api_key env kwargs = Ok key ->
  cr_status_code response <> 200 \/ truthy (cr_output response) = false ->
  (forall args,
     conversation_reply env (ImageGenerationWan26_call key args) = Ok response ->
     fst (ImageGenerationWan26_arun env args kwargs w)
     = Raise (RuntimeError "Wan 2.6 image generation failed: "))
  /\ (forall args,
     conversation_reply env (ImageEditWan26_call key args) = Ok response ->
     fst (ImageEditWan26_arun env args kwargs w)
     = Raise (RuntimeError "Wanx 2.6 image generation failed: ")).
Proof.
  intros Hkey Hcase.
  assert (Hrej : negb (Z.eqb (cr_status_code response) 200)
                 || negb (truthy (cr_output response)) = true).
  { destruct Hcase as [Hcode | Hout].
    - apply Z.eqb_neq in Hcode. rewrite Hcode. reflexivity.
    - rewrite Hout. apply orb_true_r. }
  split; intros args Hreply;
    [ unfold ImageGenerationWan26_arun | unfold ImageEditWan26_arun ];
    cbv zeta;
    (erewrite bind_Ok by (apply api_key_configured, Hkey)); cbv beta;
    (erewrite bind_Ok by (apply try_transport_Ok, Hreply));
    rewrite Hrej; reflexivity.
Qed.

(** The theorem at a 200 reply whose output is [None]. *)
Lemma image_reply_rejected_witness :
  fst (ImageEditWan26_arun
         (mock_env None no_video
            (Ok {| cr_status_code := 200; cr_request_id := Some "r1"; cr_output := PNone |})
            no_post)
         edit_args no_kwargs world0)
  = Raise (RuntimeError "Wanx 2.6 image generation failed: ").
Proof.
  destruct (image_reply_rejected
              (mock_env None no_video
                 (Ok {| cr_status_code := 200; cr_request_id := Some "r1";
                        cr_output := PNone |}) no_post)
              no_kwargs world0 "sk-test"
              {| cr_status_code := 200; cr_request_id := Some "r1"; cr_output := PNone |}
              eq_refl (or_intror eq_refl)) as (_ & Hedit).
  apply (Hedit edit_args). reflexivity.
Defined.

(** X19.  A 200 reply whose choices offer no artifact reference (for
    example only text items) makes a wan2.6 image component raise
    [RuntimeError]: neither returns an empty result list. *)
Theorem image_no_artifact_raises
    (env : Env) (kwargs : Kwargs) (w : World) (key : string)
    (response : ConversationResponse) (attrs : list (string * pyval))
    (choices : list pyval) :
  get_api_key env kwargs = Ok key ->
  cr_status_code response = 200 ->
  cr_output response = PObj attrs ->
  assoc "choices" attrs = Some (PList choices) ->
  (forall args,
     conversation_reply env (ImageGenerationWan26_call key args) = Ok response ->
     in_encounter_order generation_choice_artifacts choices = [] ->
     fst (ImageGenerationWan26_arun env args kwargs w)
     = Raise (RuntimeError "No image URLs found in response: "))
  /\ (forall args,
     conversation_reply env (ImageEditWan26_call key args) = Ok response ->
     in_encounter_order edit_choice_artifacts choices = [] ->
     fst (ImageEditWan26_arun env args kwargs w)
     = Raise (RuntimeError "No image found in response: ")).
Proof.
  intros Hkey Hcode Hout Hchoices.
  pose proof (truthy_output _ _ Hchoices) as Htruthy.
  split; intros args Hreply Hnone;
    [ unfold ImageGenerationWan26_arun | unfold ImageEditWan26_arun ];
    cbv zeta;
    (erewrite bind_Ok by (apply api_key_configured, Hkey)); cbv beta;
    (erewrite bind_Ok by (apply try_transport_Ok, Hreply));
    rewrite Hcode, Hout, Htruthy; cbn [Z.eqb Pos.eqb negb orb];
    [ rewrite (ImageGenerationWan26_parse_choices _ _ _ Hout Hchoices)
    | rewrite (ImageEditWan26_parse_choices _ _ _ Hout Hchoices) ];
    rewrite Hnone; reflexivity.
Qed.

(** The theorem at a reply whose only choice holds a text item. *)
Lemma image_no_artifact_raises_witness :
  fst (ImageGenerationWan26_arun
         (mock_env None no_video
            (Ok (conversation_ok (Some "r1")
                   [choice_with (PList [PDict [("text", PStr "no picture")]])]))
            no_post)
         (gen_args None) no_kwargs world0)
  = Raise (RuntimeError "No image URLs found in response: ").
Proof.
  set (choices := [choice_with (PList [PDict [("text", PStr "no picture")]])]).
  destruct (image_no_artifact_raises
              (mock_env None no_video (Ok (conversation_ok (Some "r1") choices)) no_post)
              no_kwargs world0 "sk-test" (conversation_ok (Some "r1") choices)
              [("choices", PList choices)] choices
              eq_refl eq_refl eq_refl eq_refl) as (Hgen & _).
  apply (Hgen (gen_args None)); reflexivity.
Defined.

(** ** The wan2.6 image components: results *)

Lemma validate_str_list_strings (field : string) (l : list pyval) (ss : list string) :
  validate_str_list field l = Ok ss -> l = map PStr ss.
Proof.
  revert ss. induction l as [|v l IH]; intros ss H; cbn in H.
  - inversion H. reflexivity.
  - destruct v; cbn in H; try discriminate.
    destruct (validate_str_list field l) as [ss'|]; [|discriminate].
    inversion H. cbn. f_equal. apply IH. reflexivity.
Qed.

Lemma ImageGenerationWan26_parse_inv
    (response : ConversationResponse) (results : list pyval) :
  truthy (cr_output response) = true ->
  ImageGenerationWan26_parse response = Ok results ->
  exists items,
    py_iter (getattr (cr_output response) "choices" (PList [])) = Ok items
    /\ results = in_encounter_order generation_choice_artifacts items.
Proof.
  intros Htruthy. unfold ImageGenerationWan26_parse. cbv zeta. rewrite Htruthy.
  destruct (py_iter _) as [items|e]; cbn; [|discriminate].
  rewrite (for_each_appends _ _ ImageGenerationWan26_visit_choice_appends).
  intros H. inversion H. exists items. split; reflexivity.
Qed.

Lemma ImageEditWan26_parse_inv
    (response : ConversationResponse) (results : list pyval) :
  truthy (cr_output response) = true ->
  ImageEditWan26_parse response = Ok results ->
  results <> [] ->
  exists items,
    py_iter (getattr (cr_output response) "choices" (PList [])) = Ok items
    /\ results = in_encounter_order edit_choice_artifacts items.
Proof.
  intros Htruthy. unfold ImageEditWan26_parse. cbv zeta. rewrite Htruthy.
  destruct (truthy (getattr _ _ _)).
  - destruct (py_iter _) as [items|e]; cbn; [|discriminate].
    rewrite (for_each_appends _ _ ImageEditWan26_visit_choice_appends).
    intros H _. inversion H. exists items. split; reflexivity.
  - intros H Hne. inversion H. subst. contradiction.
Qed.

(** X20.  Whenever a wan2.6 image component returns, the SDK answered
    with status 200, and the returned results are exactly the artifact
    references found in the reply's choices, in encounter order: nothing
    is returned that the reply does not hold, and nothing it holds is left
    out. *)
Theorem image_results_come_from_reply (env : Env) (kwargs : Kwargs) (w w' : World) :
  (forall args out,
     ImageGenerationWan26_arun env args kwargs w = (Ok out, w') ->
     exists key response choices,
       conversation_reply env (ImageGenerationWan26_call key args) = Ok response
       /\ cr_status_code response = 200
       /\ py_iter (getattr (cr_output response) "choices" (PList [])) = Ok choices
       /\ map PStr (go_results out)
          = in_encounter_order generation_choice_artifacts choices)
  /\ (forall args out,
     ImageEditWan26_arun env args kwargs w = (Ok out, w') ->
     exists key response choices,
       conversation_reply env (ImageEditWan26_call key args) = Ok response
       /\ cr_status_code response = 200
       /\ py_iter (getattr (cr_output response) "choices" (PList [])) = Ok choices
       /\ map PStr (eo_results out)
          = in_encounter_order edit_choice_artifacts choices).
Proof.
  split; intros args out H.
  - unfold ImageGenerationWan26_arun in H. cbv zeta in H.
    apply bind_inv in H as (key & w1 & _ & H).
    apply bind_inv in H as (response & w2 & Hreply & H).
    apply try_transport_inv in Hreply.
    destruct (_ || _) eqn:Hguard; [discriminate|].
    apply orb_false_elim in Hguard as [Hcode Htruthy].
    apply negb_false_iff, Z.eqb_eq in Hcode. apply negb_false_iff in Htruthy.
    apply bind_inv in H as (results & w3 & Hparse & H).
    destruct (ImageGenerationWan26_parse response) as [r|] eqn:Hp; [|discriminate].
    inversion Hparse; subst r w3.
    destruct (negb (truthy (PList results))); [discriminate|].
    apply bind_inv in H as (? & w4 & _ & H).
    apply bind_inv in H as (ss & w5 & Hval & H).
    inversion H; subst; cbn.
    assert (Hv : validate_str_list "results" results = Ok ss)
      by (unfold lift in Hval; congruence).
    apply validate_str_list_strings in Hv. subst results.
    destruct (ImageGenerationWan26_parse_inv _ _ Htruthy Hp) as (items & Hiter & Hres).
    exists key, response, items. auto.
  - unfold ImageEditWan26_arun in H. cbv zeta in H.
    apply bind_inv in H as (key & w1 & _ & H).
    apply bind_inv in H as (response & w2 & Hreply & H).
    apply try_transport_inv in Hreply.
    destruct (_ || _) eqn:Hguard; [discriminate|].
    apply orb_false_elim in Hguard as [Hcode Htruthy].
    apply negb_false_iff, Z.eqb_eq in Hcode. apply negb_false_iff in Htruthy.
    apply bind_inv in H as (results & w3 & Hparse & H).
    destruct (ImageEditWan26_parse response) as [r|] eqn:Hp; [|discriminate].
    inversion Hparse; subst r w3.
    destruct results as [|r0 results]; [discriminate|]. cbn [truthy negb] in H.
    apply bind_inv in H as (? & w4 & _ & H).
    apply bind_inv in H as (ss & w5 & Hval & H).
    inversion H; subst; cbn.
    assert (Hv : validate_str_list "results" (r0 :: results) = Ok ss)
      by (unfold lift in Hval; congruence).
    apply validate_str_list_strings in Hv.
    destruct (ImageEditWan26_parse_inv _ _ Htruthy Hp) as (items & Hiter & Hres);
      [discriminate|].
    exists key, response, items. rewrite <- Hv. auto.
Qed.

(** The theorem at a reply with three image references in two choices. *)
Lemma image_results_come_from_reply_witness :
  exists choices,
    map PStr ["https://x/1.png"; "https://x/2.png"; "https://x/3.png"]
    = in_encounter_order edit_choice_artifacts choices.
Proof.
  set (env := mock_env None no_video
                (Ok (conversation_ok (Some "r1") three_images_in_two_choices)) no_post).
  set (run := ImageEditWan26_arun env edit_args no_kwargs world0).
  set (out := {| eo_results := ["https://x/1.png"; "https://x/2.png"; "https://x/3.png"];
                 eo_request_id := Some "r1" |}).
  assert (Hrun : run = (Ok out, snd run)) by (vm_compute; reflexivity).
  destruct (image_results_come_from_reply env no_kwargs world0 (snd run)) as (_ & Hedit).
  destruct (Hedit edit_args out Hrun) as (key & response & choices & _ & _ & _ & Hres).
  exists choices. exact Hres.
Defined.

(** ** Keyword parameters of the image calls *)

Section Parameters.

Variable parameters : gmap string pyval.

Lemma lookup_set_if_not_None {A} (o : option A) (key : string) (inj : A -> pyval) :
  set_if_not_None o key inj parameters !! key
  = match o with Some a => Some (inj a) | None => parameters !! key end.
Proof. destruct o; cbn; [apply lookup_insert_eq | reflexivity]. Qed.

Lemma lookup_set_if_not_None_ne {A} (o : option A) (key key' : string) (inj : A -> pyval) :
  key <> key' ->
  set_if_not_None o key inj parameters !! key' = parameters !! key'.
Proof. intros Hne. destruct o; cbn; [apply lookup_insert_ne, Hne | reflexivity]. Qed.

Lemma lookup_set_if_truthy (o : option string) (key : string) :
  set_if_truthy o key parameters !! key
  = match o with
    | Some s => if String.eqb s "" then parameters !! key else Some (PStr s)
    | None => parameters !! key
    end.
Proof.
  destruct o as [s|]; cbn; [|reflexivity].
  destruct (String.eqb s ""); cbn; [reflexivity | apply lookup_insert_eq].
Qed.

Lemma lookup_set_if_truthy_ne (o : option string) (key key' : string) :
  key <> key' -> set_if_truthy o key parameters !! key' = parameters !! key'.
Proof.
  intros Hne. destruct o as [s|]; cbn; [|reflexivity].
  destruct (String.eqb s ""); cbn; [reflexivity | apply lookup_insert_ne, Hne].
Qed.

Lemma lookup_set_if_ne (cond : bool) (key key' : string) (value : pyval) :
  key <> key' -> set_if cond key value parameters !! key' = parameters !! key'.
Proof. intros Hne. destruct cond; cbn; [apply lookup_insert_ne, Hne | reflexivity]. Qed.

Lemma dom_set_if (cond : bool) (key : string) (value : pyval) :
  dom (set_if cond key value parameters) ⊆ {[key]} ∪ dom parameters.
Proof.
  destruct cond; cbn; [rewrite dom_insert_L; reflexivity|].
  apply union_subseteq_r.
Qed.

Lemma dom_set_if_not_None {A} (o : option A) (key : string) (inj : A -> pyval) :
  dom (set_if_not_None o key inj parameters) ⊆ {[key]} ∪ dom parameters.
Proof.
  destruct o; cbn; [rewrite dom_insert_L; reflexivity|].
  apply union_subseteq_r.
Qed.

Lemma dom_set_if_truthy (o : option string) (key : string) :
  dom (set_if_truthy o key parameters) ⊆ {[key]} ∪ dom parameters.
Proof.
  destruct o as [s|]; cbn; [apply dom_set_if | apply union_subseteq_r].
Qed.

End Parameters.

(** Reads one key of a parameter map built by the guarded assignments. *)
Ltac lookup_parameters :=
  repeat first
    [ rewrite lookup_set_if_not_None_ne by discriminate
    | rewrite lookup_set_if_truthy_ne by discriminate
    | rewrite lookup_set_if_ne by discriminate
    | rewrite lookup_set_if_not_None
    | rewrite lookup_set_if_truthy ];
  rewrite ?lookup_empty.

Lemma dom_set_if_within (cond : bool) (key : string) (value : pyval)
    (parameters : gmap string pyval) (keys : gset string) :
  dom parameters ⊆ keys -> dom (set_if cond key value parameters) ⊆ {[key]} ∪ keys.
Proof.
  intros H. etrans; [apply dom_set_if|]. apply union_mono_l, H.
Qed.

Lemma dom_set_if_not_None_within {A} (o : option A) (key : string) (inj : A -> pyval)
    (parameters : gmap string pyval) (keys : gset string) :
  dom parameters ⊆ keys ->
  dom (set_if_not_None o key inj parameters) ⊆ {[key]} ∪ keys.
Proof.
  intros H. etrans; [apply dom_set_if_not_None|]. apply union_mono_l, H.
Qed.

Lemma dom_set_if_truthy_within (o : option string) (key : string)
    (parameters : gmap string pyval) (keys : gset string) :
  dom parameters ⊆ keys -> dom (set_if_truthy o key parameters) ⊆ {[key]} ∪ keys.
Proof.
  intros H. etrans; [apply dom_set_if_truthy|]. apply union_mono_l, H.
Qed.

(** Bounds the keys of a parameter map built by the guarded assignments. *)
Ltac dom_parameters :=
  etrans;
  [ repeat first [ apply dom_set_if_not_None_within
                 | apply dom_set_if_truthy_within
                 | apply dom_set_if_within ];
    rewrite dom_empty_L; reflexivity
  | apply (bool_decide_unpack _); vm_compute; reflexivity ].

(** X21.  The keyword parameters of the text-to-image call, apart from
    [size]: [negative_prompt] is sent when it is a non-empty string; [n],
    [seed], [watermark] and [prompt_extend] are sent whenever they are not
    [None] (so [False] and [0] are sent too), each with the value given;
    and no parameter other than these and [size] is ever sent. *)
Theorem ImageGenerationWan26_parameters_sent (args : ImageGenerationWan26Input) :
  let parameters := ImageGenerationWan26_parameters args in
  parameters !! "negative_prompt"
  = match gi_negative_prompt args with
    | Some s => if String.eqb s "" then None else Some (PStr s)
    | None => None
    end
  /\ parameters !! "n" = PInt <$> gi_n args
  /\ parameters !! "seed" = PInt <$> gi_seed args
  /\ parameters !! "watermark" = PBool <$> gi_watermark args
  /\ parameters !! "prompt_extend" = PBool <$> gi_prompt_extend args
  /\ dom parameters
     ⊆ ({["negative_prompt"; "size"; "n"; "seed"; "watermark"; "prompt_extend"]}
        : gset string).
Proof.
  cbv zeta. unfold ImageGenerationWan26_parameters. cbv zeta.
  destruct (gi_size args) as [size|];
    (repeat split;
     [ lookup_parameters; reflexivity
     | lookup_parameters; destruct (gi_n args); reflexivity
     | lookup_parameters; destruct (gi_seed args); reflexivity
     | lookup_parameters; destruct (gi_watermark args); reflexivity
     | lookup_parameters; destruct (gi_prompt_extend args); reflexivity
     | dom_parameters ]).
Qed.

(** X22.  The keyword parameters of the image-edit call: [size] is sent
    whenever it is a non-empty string, ["1024*1024"] included (the value
    the text-to-image component leaves out); [negative_prompt] when it is
    a non-empty string; [seed], [watermark], [prompt_extend] and [n]
    whenever they are not [None]; and nothing else. *)
Theorem ImageEditWan26_parameters_sent (args : ImageGenInput) :
  let parameters := ImageEditWan26_parameters args in
  let non_empty (o : option string) :=
    match o with
    | Some s => if String.eqb s "" then None else Some (PStr s)
    | None => None
    end in
  parameters !! "size" = non_empty (ei_size args)
  /\ parameters !! "negative_prompt" = non_empty (ei_negative_prompt args)
  /\ parameters !! "seed" = PInt <$> ei_seed args
  /\ parameters !! "watermark" = PBool <$> ei_watermark args
  /\ parameters !! "prompt_extend" = PBool <$> ei_prompt_extend args
  /\ parameters !! "n" = PInt <$> ei_n args
  /\ dom parameters
     ⊆ ({["negative_prompt"; "size"; "seed"; "watermark"; "prompt_extend"; "n"]}
        : gset string).
Proof.
  cbv zeta. unfold ImageEditWan26_parameters. cbv zeta.
  repeat split;
    [ lookup_parameters; reflexivity
    | lookup_parameters; reflexivity
    | lookup_parameters; destruct (ei_seed args); reflexivity
    | lookup_parameters; destruct (ei_watermark args); reflexivity
    | lookup_parameters; destruct (ei_prompt_extend args); reflexivity
    | lookup_parameters; destruct (ei_n args); reflexivity
    | dom_parameters ].
Qed.

(** ** The image-edit request *)

Lemma fold_left_append {A} (f : A -> pyval) (l : list A) (content : list pyval) :
  fold_left (fun content x => append content (f x)) l content
  = (content ++ map f l)%list.
Proof.
  revert content. induction l as [|x l IH]; intros content; cbn.
  - rewrite app_nil_r. reflexivity.
  - rewrite IH. unfold append. rewrite <- app_assoc. reflexivity.
Qed.

Lemma ImageEditWan26_transport_call
    (env : Env) (args : ImageGenInput) (kwargs : Kwargs) (w : World) (key : string) :
  get_api_key env kwargs = Ok key ->
  transport_calls (snd (ImageEditWan26_arun env args kwargs w))
  = (transport_calls w ++ [CConversation (ImageEditWan26_call key args)])%list.
Proof.
  intros Hkey. unfold ImageEditWan26_arun. cbv zeta.
  erewrite bind_Ok by (apply api_key_configured, Hkey). cbv beta zeta.
  generalize (ImageEditWan26_call key args). intros c.
  destruct (conversation_reply env c) as [response|e];
    unfold mbind, M_bind, try_except, transport; [|reflexivity].
  run_cases.
Qed.

(** X23.  With a configured key the image-edit component makes exactly
    one SDK call, whatever the SDK answers or raises.  The call names the
    model ["wan2.6-image"], switches interleaved output off, and carries
    one user message whose content is the prompt as a text item followed
    by one image item per reference image, in the order given. *)
Theorem ImageEditWan26_request
    (env : Env) (args : ImageGenInput) (kwargs : Kwargs) (w : World) (key : string) :
  get_api_key env kwargs = Ok key ->
  exists c,
    transport_calls (snd (ImageEditWan26_arun env args kwargs w))
    = (transport_calls w ++ [CConversation c])%list
    /\ cc_api_key c = key
    /\ cc_model c = "wan2.6-image"
    /\ cc_enable_interleave c = Some false
    /\ cc_parameters c = ImageEditWan26_parameters args
    /\ cc_messages c
       = PList [PDict [("role", PStr "user");
                       ("content",
                        PList (PDict [("text", PStr (ei_prompt args))]
                               :: map (fun img_url => PDict [("image", PStr img_url)])
                                      (ei_images args)))]].
Proof.
  intros Hkey. exists (ImageEditWan26_call key args).
  split; [apply ImageEditWan26_transport_call, Hkey|].
  unfold ImageEditWan26_call. cbn. repeat split.
  rewrite (fold_left_append (fun img_url => PDict [("image", PStr img_url)])).
  reflexivity.
Qed.

(** The theorem at a request with one reference image. *)
Lemma ImageEditWan26_request_witness :
  exists c,
    transport_calls
      (snd (ImageEditWan26_arun (mock_env None no_video no_conversation no_post)
              edit_args no_kwargs world0))
    = [CConversation c]
    /\ cc_messages c
       = PList [PDict [("role", PStr "user");
                       ("content", PList [PDict [("text", PStr "a cat")];
                                          PDict [("image", PStr "https://x/in.png")]])]].
Proof.
  destruct (ImageEditWan26_request (mock_env None no_video no_conversation no_post)
              edit_args no_kwargs world0 "sk-test" eq_refl)
    as (c & Hcalls & _ & _ & _ & _ & Hmessages).
  exists c. split; [exact Hcalls | exact Hmessages].
Defined.

(** ** One fetch, one call *)

(** X24.  With a configured key the keyframe-to-video fetch makes exactly
    one SDK call per run, for the task id it was given, whatever the SDK
    answers or raises: it does not poll or retry. *)
Theorem Wan22Fetch_single_call
    (env : Env) (args : ImageToVideoByFirstAndLastFrameWan22FetchInput)
    (kwargs : Kwargs) (w : World) (key : string) :
  get_api_key env kwargs = Ok key ->
  transport_calls (snd (ImageToVideoByFirstAndLastFrameWan22Fetch_arun env args kwargs w))
  = (transport_calls w
     ++ [CFetch {| fc_api_key := key; fc_task := fi_task_id args |}])%list.
Proof.
  intros Hkey.
  unfold ImageToVideoByFirstAndLastFrameWan22Fetch_arun. cbv zeta.
  erewrite bind_Ok by (apply api_key_configured, Hkey). cbv beta.
  match goal with |- context [fetch_reply env ?c] => set (c0 := c) end.
  destruct (fetch_reply env c0) as [response|e];
    unfold mbind, M_bind, transport; [|reflexivity].
  unfold output_of. run_cases.
Qed.

(** The theorem at a task that is still running. *)
Lemma Wan22Fetch_single_call_witness :
  transport_calls
    (snd (ImageToVideoByFirstAndLastFrameWan22Fetch_arun
            (mock_env None (Ok (video_reply 200 (Some "r1") "RUNNING" ""))
                      no_conversation no_post)
            fetch_args no_kwargs world0))
  = [CFetch {| fc_api_key := "sk-test"; fc_task := "t1" |}].
Proof.
  apply (Wan22Fetch_single_call
           (mock_env None (Ok (video_reply 200 (Some "r1") "RUNNING" ""))
                     no_conversation no_post)
           fetch_args no_kwargs world0 "sk-test" eq_refl).
Defined.

(** ** The two parsers side by side *)





(** ** Accepted replies of the keyframe-to-video operations *)

Lemma video_reply_accepted_when (response : VideoSynthesisResponse)
    (output : VideoSynthesisOutput) :
  vr_status_code response = HTTPStatus_OK ->
  vr_output response = Some output ->
  vo_task_status output <> "FAILED" ->
  vo_task_status output <> "CANCELED" ->
  video_reply_rejected response = false.
Proof.
  intros Hcode Hout Hf Hc. unfold video_reply_rejected, str_in.
  rewrite Hcode, Hout. cbn.
  destruct (String.eqb_spec (vo_task_status output) "FAILED"); [contradiction|].
  destruct (String.eqb_spec (vo_task_status output) "CANCELED"); [contradiction|].
  reflexivity.
Qed.

(** X26.  With a configured key, a reply with status 200 whose output
    reports any status other than [FAILED] and [CANCELED] makes the submit
    return a handle with the reply's task id and status, and with the
    request id of the tracing context, else the reply's, else a fresh
    uuid. *)
Theorem Wan22Submit_accepts
    (env : Env) (args : ImageToVideoByFirstAndLastFrameWan22SubmitInput)
    (kwargs : Kwargs) (w : World) (key : string)
    (response : VideoSynthesisResponse) (output : VideoSynthesisOutput) :
  get_api_key env kwargs = Ok key ->
  (forall c, async_call_reply env c = Ok response) ->
  vr_status_code response = HTTPStatus_OK ->
  vr_output response = Some output ->
  vo_task_status output <> "FAILED" ->
  vo_task_status output <> "CANCELED" ->
  fst (ImageToVideoByFirstAndLastFrameWan22Submit_arun env args kwargs w)
  = Ok {| so_task_id := vo_task_id output;
          so_task_status := vo_task_status output;
          so_request_id :=
            Some (first_present [get_request_id env; vr_request_id response]
                                (str_uuid (uuid4 (urandom16 env)))) |}.
Proof.
  intros Hkey Hreply Hcode Hout Hf Hc.
  pose proof (video_reply_accepted_when _ _ Hcode Hout Hf Hc) as Hacc.
  unfold ImageToVideoByFirstAndLastFrameWan22Submit_arun. cbv zeta.
  erewrite bind_Ok by (apply api_key_configured, Hkey). cbv beta.
  unfold mbind, M_bind, transport. rewrite Hreply.
  rewrite <- context_then_provider. unfold or_str.
  destruct (kw_trace_event kwargs); cbn; rewrite Hacc;
    unfold output_of; rewrite Hout; reflexivity.
Qed.

(** The theorem at the reply of a queued task. *)
Lemma Wan22Submit_accepts_witness :
  fst (ImageToVideoByFirstAndLastFrameWan22Submit_arun
         (mock_env None (Ok (video_reply 200 (Some "r1") "PENDING" ""))
                   no_conversation no_post)
         submit_args no_kwargs world0)
  = Ok {| so_task_id := "t1"; so_task_status := "PENDING"; so_request_id := Some "r1" |}.
Proof.
  rewrite (Wan22Submit_accepts
             (mock_env None (Ok (video_reply 200 (Some "r1") "PENDING" ""))
                       no_conversation no_post)
             submit_args no_kwargs world0 "sk-test"
             (video_reply 200 (Some "r1") "PENDING" "")
             {| vo_task_id := "t1"; vo_task_status := "PENDING"; vo_video_url := "" |}
             eq_refl (fun _ => eq_refl) eq_refl eq_refl);
    [reflexivity | discriminate | discriminate].
Defined.

(** X27.  With a configured key, a reply with status 200 whose output
    reports any status other than [FAILED] and [CANCELED] ([SUCCEEDED]
    among them) makes the fetch return the reply's video URL, task id and
    status, with the request id of the reply, else of the tracing context,
    else a fresh uuid. *)
Theorem Wan22Fetch_accepts
    (env : Env) (args : ImageToVideoByFirstAndLastFrameWan22FetchInput)
    (kwargs : Kwargs) (w : World) (key : string)
    (response : VideoSynthesisResponse) (output : VideoSynthesisOutput) :
  get_api_key env kwargs = Ok key ->
  fetch_reply env {| fc_api_key := key; fc_task := fi_task_id args |} = Ok response ->
  vr_status_code response = HTTPStatus_OK ->
  vr_output response = Some output ->
  vo_task_status output <> "FAILED" ->
  vo_task_status output <> "CANCELED" ->
  fst (ImageToVideoByFirstAndLastFrameWan22Fetch_arun env args kwargs w)
  = Ok {| fo_video_url := vo_video_url output;
          fo_task_id := vo_task_id output;
          fo_task_status := vo_task_status output;
          fo_request_id :=
            Some (first_present [vr_request_id response; get_request_id env]
                                (str_uuid (uuid4 (urandom16 env)))) |}.
Proof.
  intros Hkey Hreply Hcode Hout Hf Hc.
  pose proof (video_reply_accepted_when _ _ Hcode Hout Hf Hc) as Hacc.
  unfold ImageToVideoByFirstAndLastFrameWan22Fetch_arun. cbv zeta.
  erewrite bind_Ok by (apply api_key_configured, Hkey). cbv beta.
  unfold mbind, M_bind, transport. rewrite Hreply.
  rewrite <- or_str_twice.
  destruct (kw_trace_event kwargs); cbn; rewrite Hacc;
    unfold output_of; rewrite Hout; reflexivity.
Qed.

(** The theorem at the reply of a finished task. *)
Lemma Wan22Fetch_accepts_witness :
  fst (ImageToVideoByFirstAndLastFrameWan22Fetch_arun
         (mock_env (Some "ctx-1") (Ok (video_reply 200 None "SUCCEEDED" "https://x/video.mp4"))
                   no_conversation no_post)
         fetch_args no_kwargs world0)
  = Ok {| fo_video_url := "https://x/video.mp4"; fo_task_id := "t1";
          fo_task_status := "SUCCEEDED"; fo_request_id := Some "ctx-1" |}.
Proof.
  rewrite (Wan22Fetch_accepts
             (mock_env (Some "ctx-1")
                       (Ok (video_reply 200 None "SUCCEEDED" "https://x/video.mp4"))
                       no_conversation no_post)
             fetch_args no_kwargs world0 "sk-test"
             (video_reply 200 None "SUCCEEDED" "https://x/video.mp4")
             {| vo_task_id := "t1"; vo_task_status := "SUCCEEDED";
                vo_video_url := "https://x/video.mp4" |}
             eq_refl eq_refl eq_refl eq_refl);
    [reflexivity | discriminate | discriminate].
Defined.
